(** * Resume generator: the block sequence built from a resume record

    A shallow embedding of [main.py]: the section renderers of
    [ResumeGenerator], the [TwoColumnLine] flowable and [main], with the
    properties of the specification stated and proved over them.

    Conventions of the embedding.
    - A Python [str] is a [string] holding its UTF-8 encoding; concatenation
      and [join] commute with the encoding.
    - Font sizes, indents and the heights of spacers are exact rationals
      ([Q]), in points; the widths and positions that [TwoColumnLine]
      computes at render time are binary64 floats, as in Python.
    - What the rendering library does is a parameter: which texts the
      constructor of [Paragraph] refuses, what the canvas measures and
      which of its calls raise.
    - The data loaded by [yaml.safe_load] is a [value]: null, booleans,
      integers, strings, sequences and mappings with string keys, a mapping
      being the list of its items in insertion order.  YAML floats and
      timestamps are not part of the model.
    - A method that mutates [story] and may raise is a function from the
      [world] to a result and the [world] after it: what was appended before
      an exception stays appended. *)

From Stdlib Require Import List String Ascii Bool ZArith QArith Permutation Lia.
From Stdlib Require Import PrimFloat.
Set Warnings "-inexact-float".
Import ListNotations.
Open Scope string_scope.
Open Scope list_scope.

(** ** Python values *)

#[warnings="-register-all"]
Inductive value : Type :=
| VNone
| VBool (b : bool)
| VInt (z : Z)
| VStr (s : string)
| VList (l : list value)
| VDict (d : list (string * value)).

Inductive exn : Type :=
| FileNotFoundError (msg : string)
| TypeError
| KeyError (key : string)
| AttributeError (attr : string)
| ValueError (msg : string)
| LibraryError (msg : string).

Inductive result (A : Type) : Type :=
| Ok (a : A)
| Raise (e : exn).
Arguments Ok {A} a.
Arguments Raise {A} e.

(** [d.get(k)] on the items of a mapping: the first item with that key. *)
Fixpoint lookup (k : string) (d : list (string * value)) : option value :=
  match d with
  | [] => None
  | (k', v) :: d' => if String.eqb k k' then Some v else lookup k d'
  end.

Definition has_key (k : string) (d : list (string * value)) : bool :=
  match lookup k d with Some _ => true | None => false end.

(** [needle in hay] for two strings. *)
Fixpoint substring_of (needle hay : string) : bool :=
  prefix needle hay ||
  match hay with
  | EmptyString => false
  | String _ hay' => substring_of needle hay'
  end.

Definition is_str (k : string) (v : value) : bool :=
  match v with VStr s => String.eqb k s | _ => false end.

(** [k in v] for a string literal [k]. *)
Definition py_in (k : string) (v : value) : result bool :=
  match v with
  | VDict d => Ok (has_key k d)
  | VList l => Ok (existsb (is_str k) l)
  | VStr s => Ok (substring_of k s)
  | VNone | VBool _ | VInt _ => Raise TypeError
  end.

(** [v[k]] for a string literal [k]. *)
Definition py_getitem (v : value) (k : string) : result value :=
  match v with
  | VDict d =>
      match lookup k d with
      | Some x => Ok x
      | None => Raise (KeyError k)
      end
  | _ => Raise TypeError
  end.

(** Truth value of an object, as [not v] and [if v] test it. *)
Definition py_truthy (v : value) : bool :=
  match v with
  | VNone => false
  | VBool b => b
  | VInt z => negb (z =? 0)%Z
  | VStr s => negb (s =? "")
  | VList l => match l with [] => false | _ => true end
  | VDict d => match d with [] => false | _ => true end
  end.

(** The characters of a string: every byte that is not a UTF-8 continuation
    byte starts a new one. *)
Definition is_continuation (c : ascii) : bool :=
  let n := N_of_ascii c in ((128 <=? n) && (n <? 192))%N.

Fixpoint chars (s : string) : list string :=
  match s with
  | EmptyString => []
  | String c rest =>
      let r := chars rest in
      match rest, r with
      | String c' _, ch :: chs =>
          if is_continuation c' then String c ch :: chs
          else String c EmptyString :: r
      | _, _ => String c EmptyString :: r
      end
  end.

(** The items a [for] loop (or [join]) draws from an object. *)
Definition py_iter (v : value) : result (list value) :=
  match v with
  | VList l => Ok l
  | VDict d => Ok (map (fun kv => VStr (fst kv)) d)
  | VStr s => Ok (map VStr (chars s))
  | VNone | VBool _ | VInt _ => Raise TypeError
  end.

(** [sep.join(items)]: every item has to be a [str]. *)
Fixpoint strings_of (items : list value) : result (list string) :=
  match items with
  | [] => Ok []
  | VStr s :: rest =>
      match strings_of rest with
      | Ok l => Ok (s :: l)
      | Raise e => Raise e
      end
  | _ :: _ => Raise TypeError
  end.

Definition str_join (sep : string) (items : list value) : result string :=
  match strings_of items with
  | Ok l => Ok (String.concat sep l)
  | Raise e => Raise e
  end.

(** An f-string is kept as its parts: literal text and the objects formatted
    into it.  [Paragraph] receives either an object as it is or an f-string. *)
Inductive fpart : Type :=
| Lit (s : string)
| Fmt (v : value).

Inductive ptext : Type :=
| Obj (v : value)
| FStr (parts : list fpart).

Definition fpart_string (p : fpart) : option string :=
  match p with
  | Lit s => Some s
  | Fmt (VStr s) => Some s
  | Fmt _ => None
  end.

Fixpoint fstring_string (parts : list fpart) : option string :=
  match parts with
  | [] => Some ""
  | p :: rest =>
      match fpart_string p, fstring_string rest with
      | Some a, Some b => Some (a ++ b)%string
      | _, _ => None
      end
  end.

(** The text of a paragraph whose formatted objects are all strings. *)
Definition ptext_string (t : ptext) : option string :=
  match t with
  | Obj (VStr s) => Some s
  | Obj _ => None
  | FStr parts => fstring_string parts
  end.

(** ** State and exceptions

    [M S A]: a computation over a mutable state [S] that returns an [A] or
    raises; the state reached is kept in both cases. *)

Definition M (S A : Type) : Type := S -> result A * S.

Definition ret {S A : Type} (a : A) : M S A := fun s => (Ok a, s).

Definition bind {S A B : Type} (m : M S A) (k : A -> M S B) : M S B :=
  fun s =>
    match m s with
    | (Ok a, s') => k a s'
    | (Raise e, s') => (Raise e, s')
    end.

Definition lift {S A : Type} (r : result A) : M S A := fun s => (r, s).

Notation "x <- m ;; k" := (bind m (fun x => k))
  (at level 61, m at next level, right associativity).
Notation "m ;; k" := (bind m (fun _ => k))
  (at level 61, right associativity).

Fixpoint for_each {S A : Type} (items : list A) (body : A -> M S unit)
  : M S unit :=
  match items with
  | [] => ret tt
  | x :: rest => body x ;; for_each rest body
  end.

(** [for x in v: body]. *)
Definition for_in {S : Type} (v : value) (body : value -> M S unit)
  : M S unit :=
  items <- lift (py_iter v) ;; for_each items body.

(** [a and b], [a or b]: the right operand is evaluated only when needed. *)
Definition py_and {S : Type} (a b : M S bool) : M S bool :=
  x <- a ;; if x then b else ret false.

Definition py_or {S : Type} (a b : M S bool) : M S bool :=
  x <- a ;; if x then ret true else b.

Definition when {S : Type} (c : bool) (m : M S unit) : M S unit :=
  if c then m else ret tt.

(** ** Styles and blocks *)

Inductive color : Type := black | darkblue | grey.

Inductive alignment_t : Type := TA_LEFT | TA_CENTER | TA_RIGHT.

Definition inch : Q := 72.

(** The attributes of a [ParagraphStyle] that [_setup_custom_styles] sets on
    some style; a style that does not set one inherits it from its parent. *)
Record ParagraphStyle : Type := {
  name : string;
  fontName : string;
  fontSize : Q;
  textColor : color;
  alignment : alignment_t;
  spaceBefore : Q;
  spaceAfter : Q;
  leftIndent : Q;
  firstLineIndent : Q
}.

(** The names under which [self.styles] is read or extended. *)
Inductive style_key : Type :=
| Normal | Heading1 | Heading2
| Name | Contact | SectionHeader | JobTitle | Company | DateLocation
| Description | BulletPoint.

Definition style_key_eqb (a b : style_key) : bool :=
  match a, b with
  | Normal, Normal | Heading1, Heading1 | Heading2, Heading2
  | Name, Name | Contact, Contact | SectionHeader, SectionHeader
  | JobTitle, JobTitle | Company, Company | DateLocation, DateLocation
  | Description, Description | BulletPoint, BulletPoint => true
  | _, _ => false
  end.

Definition StyleSheet : Type := style_key -> ParagraphStyle.

(** [styles.add(style)], under the key that names the style. *)
Definition add (sheet : StyleSheet) (k : style_key) (st : ParagraphStyle)
  : StyleSheet :=
  fun k' => if style_key_eqb k' k then st else sheet k'.

Module TwoColumnLine.

(** The style dictionaries handed to the constructor: [fontName] and
    [fontSize] are subscripted, [textColor] is read with a default. *)
Record style : Type := {
  fontName : string;
  fontSize : Q;
  textColor : option color
}.

(** [__init__] sets the four arguments; [width] is set by [wrap]. *)
Record t : Type := {
  left_text : value;
  right_text : value;
  left_style : style;
  right_style : style;
  width : option float
}.

Definition init (left right : value) (lstyle rstyle : style) : t :=
  {| left_text := left; right_text := right;
     left_style := lstyle; right_style := rstyle; width := None |}.

(** The calls made on the canvas, in order. *)
Inductive canvas_op : Type :=
| setFont (font : string) (size : Q)
| setFillColor (c : color)
| drawString (x y : float) (text : value).

Definition get_color (st : style) (default : color) : color :=
  match textColor st with Some c => c | None => default end.

Definition wrap (self : t) (availWidth availHeight : float)
  : (float * Z) * t :=
  let self' :=
    {| left_text := left_text self; right_text := right_text self;
       left_style := left_style self; right_style := right_style self;
       width := Some availWidth |} in
  ((availWidth, 14%Z), self').

Section Draw.

(** The canvas of the rendering library: what [canvas.stringWidth]
    returns or raises for a text, a font and a size, and the exception
    that one of the other calls raises, if any. *)
Variable stringWidth : value -> string -> Q -> result float.
Variable canvas_error : canvas_op -> option exn.

(** A call on the canvas: recorded when it returns. *)
Definition emit (op : canvas_op) : M (list canvas_op) unit :=
  fun ops =>
    match canvas_error op with
    | None => (Ok tt, ops ++ [op])
    | Some e => (Raise e, ops)
    end.

Definition draw (self : t) : M (list canvas_op) unit :=
  emit (setFont (fontName (left_style self)) (fontSize (left_style self))) ;;
  emit (setFillColor (get_color (left_style self) black)) ;;
  emit (drawString 0 0 (left_text self)) ;;
  right_text_width <-
    lift (stringWidth (right_text self) (fontName (right_style self))
                      (fontSize (right_style self))) ;;
  w <- lift (match width self with
             | Some w => Ok w
             | None => Raise (AttributeError "width")
             end) ;;
  let right_x := (w - right_text_width)%float in
  emit (setFont (fontName (right_style self)) (fontSize (right_style self))) ;;
  emit (setFillColor (get_color (right_style self) black)) ;;
  emit (drawString right_x 0 (right_text self)).

End Draw.

End TwoColumnLine.

Inductive block : Type :=
| Paragraph (text : ptext) (style : ParagraphStyle)
| Spacer (width height : Q)
| HRFlowable (width : string) (thickness : Q) (c : color)
| TwoColumn (line : TwoColumnLine.t).

(** ** The generator and its world *)

Record ResumeGenerator : Type := {
  input_file : string;
  output_file : string;
  data : value;
  styles : StyleSheet
}.

Record SimpleDocTemplate : Type := {
  filename : string;
  pagesize : Q * Q;
  rightMargin : Q;
  leftMargin : Q;
  topMargin : Q;
  bottomMargin : Q
}.

(** What the process does to the outside: lines printed, and the call of
    [doc.build], which writes the output file. *)
Inductive event : Type :=
| Print (line : string)
| PrintError (prefix : string) (e : exn)
| Build (doc : SimpleDocTemplate) (blocks : list block).

Record world : Type := {
  self : ResumeGenerator;
  story : list block;
  trace : list event
}.

Definition self_data : M world value := fun w => (Ok (data (self w)), w).

Definition self_styles (k : style_key) : M world ParagraphStyle :=
  fun w => (Ok (styles (self w) k), w).

Definition story_append (b : block) : M world unit :=
  fun w =>
    (Ok tt, {| self := self w; story := story w ++ [b]; trace := trace w |}).

(** ["k" in self.data] and [self.data["k"]]. *)
Definition data_in (k : string) : M world bool :=
  d <- self_data ;; lift (py_in k d).

Definition data_at (k : string) : M world value :=
  d <- self_data ;; lift (py_getitem d k).

Definition key_in (k : string) (v : value) : M world bool := lift (py_in k v).

Definition item (v : value) (k : string) : M world value :=
  lift (py_getitem v k).

Definition negate (m : M world bool) : M world bool :=
  b <- m ;; ret (negb b).

Definition truthy (m : M world value) : M world bool :=
  v <- m ;; ret (py_truthy v).

(** ** Section renderers *)

Section Rendering.

(** The constructor of [Paragraph] parses its text: [paragraph_error] is
    the exception it raises for a text and a style, if any (reportlab
    raises for a text that is not a string and for malformed markup).
    The titles of the sections are literals that it accepts. *)
Variable paragraph_error : ptext -> ParagraphStyle -> option exn.

Definition new_Paragraph (text : ptext) (st : ParagraphStyle)
  : M world block :=
  lift (match paragraph_error text st with
        | None => Ok (Paragraph text st)
        | Some e => Raise e
        end).

Definition add_section_separator : M world unit :=
  story_append (HRFlowable "100%" 0.5 black) ;;
  story_append (Spacer 1 (0.08 * inch)).

(** One of the six tests [if "k" in personal: contact_info.append(...)]. *)
Definition contact_field (personal : value) (k : string)
  (contact_info : list value) : M world (list value) :=
  c <- key_in k personal ;;
  if c then v <- item personal k ;; ret (contact_info ++ [v])
  else ret contact_info.

Definition create_personal_section : M world unit :=
  c <- data_in "personal" ;;
  if negb c then ret tt else
  personal <- data_at "personal" ;;
  c <- key_in "name" personal ;;
  when c (v <- item personal "name" ;;
          st <- self_styles Name ;;
          name <- new_Paragraph (Obj v) st ;;
          story_append name) ;;
  let contact_info := [] in
  contact_info <- contact_field personal "email" contact_info ;;
  contact_info <- contact_field personal "phone" contact_info ;;
  contact_info <- contact_field personal "location" contact_info ;;
  contact_info <- contact_field personal "linkedin" contact_info ;;
  contact_info <- contact_field personal "github" contact_info ;;
  contact_info <- contact_field personal "website" contact_info ;;
  when (match contact_info with [] => false | _ => true end)
       (contact_text <- lift (str_join " • " contact_info) ;;
        st <- self_styles Contact ;;
        contact <- new_Paragraph (Obj (VStr contact_text)) st ;;
        story_append contact) ;;
  story_append (Spacer 1 (0.03 * inch)).

(** The style dictionaries written out at the four [TwoColumnLine] calls. *)
Definition bold_12 : TwoColumnLine.style :=
  {| TwoColumnLine.fontName := "Helvetica-Bold";
     TwoColumnLine.fontSize := 12;
     TwoColumnLine.textColor := Some black |}.

Definition plain_11 : TwoColumnLine.style :=
  {| TwoColumnLine.fontName := "Helvetica";
     TwoColumnLine.fontSize := 11;
     TwoColumnLine.textColor := Some black |}.

Definition oblique_11 (c : color) : TwoColumnLine.style :=
  {| TwoColumnLine.fontName := "Helvetica-Oblique";
     TwoColumnLine.fontSize := 11;
     TwoColumnLine.textColor := Some c |}.

(** The body of the loop over [self.data["experience"]]. *)
Definition experience_entry (exp : value) : M world unit :=
  c <- py_and (key_in "company" exp) (key_in "location" exp) ;;
  when c (l <- item exp "company" ;;
          r <- item exp "location" ;;
          story_append (TwoColumn (TwoColumnLine.init l r bold_12 plain_11)) ;;
          story_append (Spacer 1 (0.02 * inch))) ;;
  c <- py_and (key_in "title" exp) (key_in "duration" exp) ;;
  when c (l <- item exp "title" ;;
          r <- item exp "duration" ;;
          story_append
            (TwoColumn (TwoColumnLine.init l r (oblique_11 black)
                                           (oblique_11 grey))) ;;
          story_append (Spacer 1 (0.04 * inch))) ;;
  c <- key_in "responsibilities" exp ;;
  when c (rs <- item exp "responsibilities" ;;
          for_in rs (fun responsibility =>
            st <- self_styles BulletPoint ;;
            description <-
              new_Paragraph (FStr [Lit "- "; Fmt responsibility]) st ;;
            story_append description)) ;;
  story_append (Spacer 1 (0.05 * inch)).

Definition create_experience_section : M world unit :=
  skip <- py_or (negate (data_in "experience"))
                (negate (truthy (data_at "experience"))) ;;
  if skip then ret tt else
  st <- self_styles SectionHeader ;;
  story_append (Paragraph (Obj (VStr "PROFESSIONAL EXPERIENCE")) st) ;;
  add_section_separator ;;
  entries <- data_at "experience" ;;
  for_in entries experience_entry.

(** The body of the loop over [self.data["education"]]. *)
Definition education_entry (edu : value) : M world unit :=
  c <- py_and (key_in "institution" edu) (key_in "duration" edu) ;;
  when c (l <- item edu "institution" ;;
          r <- item edu "duration" ;;
          story_append (TwoColumn (TwoColumnLine.init l r bold_12 plain_11)) ;;
          story_append (Spacer 1 (0.02 * inch))) ;;
  c <- py_and (key_in "degree" edu) (key_in "location" edu) ;;
  when c (l <- item edu "degree" ;;
          r <- item edu "location" ;;
          story_append
            (TwoColumn (TwoColumnLine.init l r (oblique_11 black)
                                           (oblique_11 grey))) ;;
          story_append (Spacer 1 (0.05 * inch))).

Definition create_education_section : M world unit :=
  skip <- py_or (negate (data_in "education"))
                (negate (truthy (data_at "education"))) ;;
  if skip then ret tt else
  st <- self_styles SectionHeader ;;
  story_append (Paragraph (Obj (VStr "EDUCATION")) st) ;;
  add_section_separator ;;
  entries <- data_at "education" ;;
  for_in entries education_entry.

Definition create_skills_section : M world unit :=
  skip <- py_or (negate (data_in "skills"))
                (negate (truthy (data_at "skills"))) ;;
  if skip then ret tt else
  st <- self_styles SectionHeader ;;
  story_append (Paragraph (Obj (VStr "TECHNICAL SKILLS")) st) ;;
  add_section_separator ;;
  skills <- data_at "skills" ;;
  items <- lift (py_iter skills) ;;
  skills_text <- lift (str_join ", " items) ;;
  st <- self_styles Description ;;
  skills_para <- new_Paragraph (Obj (VStr skills_text)) st ;;
  story_append skills_para ;;
  story_append (Spacer 1 (0.1 * inch)).

Definition create_certifications_section : M world unit :=
  skip <- py_or (negate (data_in "certifications"))
                (negate (truthy (data_at "certifications"))) ;;
  if skip then ret tt else
  st <- self_styles SectionHeader ;;
  story_append (Paragraph (Obj (VStr "CERTIFICATIONS")) st) ;;
  add_section_separator ;;
  certs <- data_at "certifications" ;;
  for_in certs (fun cert =>
    st <- self_styles Description ;;
    cert_para <- new_Paragraph (FStr [Lit "• "; Fmt cert]) st ;;
    story_append cert_para).

(** The body of the loop over [self.data["projects"]]. *)
Definition project_entry (project : value) : M world unit :=
  c <- key_in "name" project ;;
  when c (v <- item project "name" ;;
          st <- self_styles JobTitle ;;
          name <- new_Paragraph (FStr [Lit "<b>"; Fmt v; Lit "</b>"]) st ;;
          story_append name) ;;
  c <- key_in "description" project ;;
  when c (v <- item project "description" ;;
          st <- self_styles Description ;;
          desc <- new_Paragraph (Obj v) st ;;
          story_append desc) ;;
  c <- key_in "technologies" project ;;
  when c (v <- item project "technologies" ;;
          st <- self_styles Description ;;
          tech <-
            new_Paragraph (FStr [Lit "<b>Technologies:</b> "; Fmt v]) st ;;
          story_append tech) ;;
  c <- key_in "link" project ;;
  when c (v <- item project "link" ;;
          st <- self_styles Description ;;
          link <- new_Paragraph (FStr [Lit "<b>Link:</b> "; Fmt v]) st ;;
          story_append link) ;;
  story_append (Spacer 1 (0.1 * inch)).

Definition create_projects_section : M world unit :=
  skip <- py_or (negate (data_in "projects"))
                (negate (truthy (data_at "projects"))) ;;
  if skip then ret tt else
  st <- self_styles SectionHeader ;;
  story_append (Paragraph (Obj (VStr "PROJECTS")) st) ;;
  entries <- data_at "projects" ;;
  for_in entries project_entry.

(** Page size of [reportlab.lib.pagesizes.letter]. *)
Definition letter : Q * Q := (8.5 * inch, 11 * inch).

(** The six calls of [generate_pdf], in its order. *)
Definition render_sections : M world unit :=
  create_personal_section ;;
  create_experience_section ;;
  create_education_section ;;
  create_skills_section ;;
  create_certifications_section ;;
  create_projects_section.

(** [story = []] followed by the six calls. *)
Definition build_story : M world unit :=
  (fun w => (Ok tt, {| self := self w; story := []; trace := trace w |})) ;;
  render_sections.

(** ** Construction, loading and the entry point *)

Definition print (line : string) : M world unit :=
  fun w =>
    (Ok tt, {| self := self w; story := story w;
               trace := trace w ++ [Print line] |}).

Definition print_error (prefix : string) (e : exn) : M world unit :=
  fun w =>
    (Ok tt, {| self := self w; story := story w;
               trace := trace w ++ [PrintError prefix e] |}).

(** [self.data = v]. *)
Definition set_data (v : value) : M world unit :=
  fun w =>
    (Ok tt, {| self := {| input_file := input_file (self w);
                          output_file := output_file (self w);
                          data := v;
                          styles := styles (self w) |};
               story := story w; trace := trace w |}).

(** [try: body / except FileNotFoundError: h1 / except Exception: h2]. *)
Definition try_except {A : Type} (body : M world A)
  (on_missing : exn -> M world A) (on_exception : exn -> M world A)
  : M world A :=
  fun w =>
    match body w with
    | (Ok a, w') => (Ok a, w')
    | (Raise (FileNotFoundError msg), w') =>
        on_missing (FileNotFoundError msg) w'
    | (Raise e, w') => on_exception e w'
    end.

Section Environment.

(** [reportlab.pdfbase.pdfmetrics.stringWidth] and the style sheet
    returned by [getSampleStyleSheet()]. *)
Variable stringWidth : string -> string -> Q -> Q.
Variable getSampleStyleSheet : StyleSheet.

(** The file system and the libraries: [Path(p).exists()], opening [p] and
    [yaml.safe_load] of its content, and [doc.build(story)]. *)
Variable path_exists : string -> bool.
Variable yaml_safe_load : string -> result value.
Variable doc_build : SimpleDocTemplate -> list block -> result unit.

Definition _setup_custom_styles (sheet : StyleSheet) : StyleSheet :=
  let sheet := add sheet Name
    (let parent := sheet Heading1 in
     {| name := "Name"; fontName := "Helvetica-Bold"; fontSize := 20;
        textColor := darkblue; alignment := TA_CENTER;
        spaceBefore := spaceBefore parent; spaceAfter := 6;
        leftIndent := leftIndent parent;
        firstLineIndent := firstLineIndent parent |}) in
  let sheet := add sheet Contact
    (let parent := sheet Normal in
     {| name := "Contact"; fontName := "Helvetica"; fontSize := 11;
        textColor := black; alignment := TA_CENTER;
        spaceBefore := spaceBefore parent; spaceAfter := 6;
        leftIndent := leftIndent parent;
        firstLineIndent := firstLineIndent parent |}) in
  let sheet := add sheet SectionHeader
    (let parent := sheet Heading2 in
     {| name := "SectionHeader"; fontName := "Helvetica-Bold";
        fontSize := 14; textColor := black;
        alignment := alignment parent;
        spaceBefore := 8; spaceAfter := 1;
        leftIndent := leftIndent parent;
        firstLineIndent := firstLineIndent parent |}) in
  let sheet := add sheet JobTitle
    (let parent := sheet Normal in
     {| name := "JobTitle"; fontName := "Helvetica-Bold"; fontSize := 11;
        textColor := black; alignment := alignment parent;
        spaceBefore := spaceBefore parent; spaceAfter := 2;
        leftIndent := leftIndent parent;
        firstLineIndent := firstLineIndent parent |}) in
  let sheet := add sheet Company
    (let parent := sheet Normal in
     {| name := "Company"; fontName := "Helvetica-Bold"; fontSize := 11;
        textColor := black; alignment := alignment parent;
        spaceBefore := spaceBefore parent; spaceAfter := 2;
        leftIndent := leftIndent parent;
        firstLineIndent := firstLineIndent parent |}) in
  let sheet := add sheet DateLocation
    (let parent := sheet Normal in
     {| name := "DateLocation"; fontName := "Helvetica-Oblique";
        fontSize := 11; textColor := grey; alignment := alignment parent;
        spaceBefore := spaceBefore parent; spaceAfter := 4;
        leftIndent := leftIndent parent;
        firstLineIndent := firstLineIndent parent |}) in
  let sheet := add sheet Description
    (let parent := sheet Normal in
     {| name := "Description"; fontName := "Helvetica"; fontSize := 11;
        textColor := black; alignment := alignment parent;
        spaceBefore := spaceBefore parent; spaceAfter := 2;
        leftIndent := 0;
        firstLineIndent := firstLineIndent parent |}) in
  let dash_space_width := stringWidth "- " "Helvetica" 11 in
  add sheet BulletPoint
    (let parent := sheet Normal in
     {| name := "BulletPoint"; fontName := "Helvetica"; fontSize := 11;
        textColor := black; alignment := alignment parent;
        spaceBefore := spaceBefore parent; spaceAfter := 2;
        leftIndent := dash_space_width;
        firstLineIndent := - dash_space_width |}).

(** [ResumeGenerator.__init__]. *)
Definition new_ResumeGenerator (input output : string) : ResumeGenerator :=
  {| input_file := input; output_file := output; data := VDict [];
     styles := _setup_custom_styles getSampleStyleSheet |}.

Definition parse_input_file : M world unit :=
  fun w =>
    let path := input_file (self w) in
    if negb (path_exists path) then
      (Raise (FileNotFoundError ("Input file " ++ path ++ " not found!")%string),
       w)
    else
      (v <- lift (yaml_safe_load path) ;; set_data v) w.

Definition generate_pdf : M world unit :=
  fun w =>
    let doc :=
      {| filename := output_file (self w); pagesize := letter;
         rightMargin := 0.3 * inch; leftMargin := 0.3 * inch;
         topMargin := 0.2 * inch; bottomMargin := 0.2 * inch |} in
    (build_story ;;
     (fun w' =>
        match doc_build doc (story w') with
        | Ok _ =>
            (Ok tt, {| self := self w'; story := story w';
                       trace := trace w' ++ [Build doc (story w')] |})
        | Raise e =>
            (Raise e, {| self := self w'; story := story w';
                         trace := trace w' ++ [Build doc (story w')] |})
        end) ;;
     print ("Resume generated successfully: " ++ output_file (self w))%string)
      w.

(** [main()]: the value returned, which is the exit status, and the world
    left behind. *)
Definition main : result Z * world :=
  let generator :=
    new_ResumeGenerator "resume_data.yaml" "Generated_Resume.pdf" in
  try_except
    (print "Parsing input data..." ;;
     parse_input_file ;;
     print "Generating PDF..." ;;
     generate_pdf ;;
     print "Resume generation completed successfully!" ;;
     ret 0%Z)
    (fun e =>
       print_error "Error: " e ;;
       print "Please ensure resume_data.yaml exists with your resume data" ;;
       ret 1%Z)
    (fun e =>
       print_error "Error generating resume: " e ;;
       ret 1%Z)
    {| self := generator; story := []; trace := [] |}.

End Environment.

(** The text of a printed line, where the model carries it: an exception
    built from one message prints as that message. *)
Definition exn_message (e : exn) : option string :=
  match e with
  | FileNotFoundError msg | LibraryError msg | ValueError msg => Some msg
  | TypeError | KeyError _ | AttributeError _ => None
  end.

Definition event_text (ev : event) : option string :=
  match ev with
  | Print line => Some line
  | PrintError prefix e =>
      match exn_message e with
      | Some msg => Some (prefix ++ msg)%string
      | None => None
      end
  | Build _ _ => None
  end.

Definition is_build (ev : event) : bool :=
  match ev with Build _ _ => true | _ => false end.

(** ** What a computation appends *)

Definition with_story (w : world) (bs : list block) : world :=
  {| self := self w; story := bs; trace := trace w |}.

(** The result and the blocks of [m] run for generator [g] on an empty list. *)
Definition out {A : Type} (m : M world A) (g : ResumeGenerator)
  : result A * list block :=
  let r := m {| self := g; story := []; trace := [] |} in
  (fst r, story (snd r)).

(** The blocks that [m] adds to the list of [w]. *)
Definition appended {A : Type} (m : M world A) (w : world) : list block :=
  skipn (List.length (story w)) (story (snd (m w))).

(** [m] touches the world only by appending to [story], and what it returns
    and appends is determined by the generator. *)
Definition appender {A : Type} (m : M world A) : Prop :=
  forall w,
    m w = (fst (out m (self w)),
           with_story w (story w ++ snd (out m (self w)))).

(** The exception that building a block raises, if any: only the
    constructor of a paragraph can refuse its text. *)
Definition block_error (b : block) : option exn :=
  match b with
  | Paragraph t st => paragraph_error t st
  | Spacer _ _ | HRFlowable _ _ _ | TwoColumn _ => None
  end.

Definition accepted (b : block) : Prop := block_error b = None.

(** Building and appending the blocks [bs] one after the other: the result,
    and the blocks appended before the first one that is refused. *)
Fixpoint built (bs : list block) : result unit * list block :=
  match bs with
  | [] => (Ok tt, [])
  | b :: rest =>
      match block_error b with
      | Some e => (Raise e, [])
      | None => (fst (built rest), b :: snd (built rest))
      end
  end.

(** The six renderers, in the order in which [generate_pdf] calls them. *)
Definition section_renderers : list (M world unit) :=
  [ create_personal_section; create_experience_section;
    create_education_section; create_skills_section;
    create_certifications_section; create_projects_section ].

(** Running renderers one after the other for the generator [g], each
    from an empty list: the result, and the blocks of those that ran, up
    to and including the first one that raises. *)
Fixpoint run_in_order (ms : list (M world unit)) (g : ResumeGenerator)
  : result unit * list block :=
  match ms with
  | [] => (Ok tt, [])
  | m :: rest =>
      match fst (out m g) with
      | Ok _ =>
          (fst (run_in_order rest g),
           snd (out m g) ++ snd (run_in_order rest g))
      | Raise e => (Raise e, snd (out m g))
      end
  end.

(** Two objects that answer [k in v] and [v[k]] alike for every key. *)
Definition same_items (v1 v2 : value) : Prop :=
  forall k, py_in k v1 = py_in k v2 /\ py_getitem v1 k = py_getitem v2 k.

Definition sim (g1 g2 : ResumeGenerator) : Prop :=
  styles g1 = styles g2 /\ same_items (data g1) (data g2).

Definition respects {A : Type} (m : M world A) : Prop :=
  forall g1 g2, sim g1 g2 -> out m g1 = out m g2.

(** The five sections whose guard also tests the value, with their keys. *)
Definition guarded_sections : list (string * M world unit) :=
  [ ("experience", create_experience_section);
    ("education", create_education_section);
    ("skills", create_skills_section);
    ("certifications", create_certifications_section);
    ("projects", create_projects_section) ].

Definition absent_or_empty (k : string) (d : list (string * value)) : bool :=
  match lookup k d with
  | None => true
  | Some v => negb (py_truthy v)
  end.

Definition two_column (l r : value) (ls rs : TwoColumnLine.style) : block :=
  TwoColumn (TwoColumnLine.init l r ls rs).

(** The left/right line of a pair of fields and the spacer under it, when
    both fields are there. *)
Definition pair_blocks (left right : option value)
  (ls rs : TwoColumnLine.style) (gap : Q) : list block :=
  match left, right with
  | Some l, Some r => [two_column l r ls rs; Spacer 1 gap]
  | _, _ => []
  end.

Definition bullet (sheet : StyleSheet) (responsibility : value) : block :=
  Paragraph (FStr [Lit "- "; Fmt responsibility]) (sheet BulletPoint).

(** The items of the responsibilities of an entry: none when the key is
    absent. *)
Definition responsibilities (e : list (string * value))
  : result (list value) :=
  match lookup "responsibilities" e with
  | None => Ok []
  | Some rs => py_iter rs
  end.

(** What an experience entry appends after its two-column lines: the
    bullets built before the first refused one, and the closing spacer
    when none is refused; nothing when the responsibilities cannot be
    iterated. *)
Definition entry_tail (sheet : StyleSheet) (e : list (string * value))
  : list block :=
  match responsibilities e with
  | Raise _ => []
  | Ok items =>
      snd (built (map (bullet sheet) items)) ++
      match fst (built (map (bullet sheet) items)) with
      | Ok _ => [Spacer 1 (0.05 * inch)]
      | Raise _ => []
      end
  end.


Definition contact_keys : list string :=
  ["email"; "phone"; "location"; "linkedin"; "github"; "website"].

(** The contact fields of a personal mapping that are there, in the order
    of [contact_keys]. *)
Definition present_contacts (p : list (string * value)) : list value :=
  flat_map (fun k => match lookup k p with Some v => [v] | None => [] end)
           contact_keys.

Definition name_blocks (sheet : StyleSheet) (p : list (string * value))
  : list block :=
  match lookup "name" p with
  | Some n => [Paragraph (Obj n) (sheet Name)]
  | None => []
  end.

(** The contact line: none without a contact field, an error when one of
    the fields is not a string. *)
Definition contact_blocks (sheet : StyleSheet) (p : list (string * value))
  : result (list block) :=
  match present_contacts p with
  | [] => Ok []
  | ci =>
      match str_join " • " ci with
      | Ok contact_text => Ok [Paragraph (Obj (VStr contact_text)) (sheet Contact)]
      | Raise x => Raise x
      end
  end.

Definition section_header (sheet : StyleSheet) (title : string) : block :=
  Paragraph (Obj (VStr title)) (sheet SectionHeader).

(** What [add_section_separator] appends. *)
Definition separator_blocks : list block :=
  [HRFlowable "100%" 0.5 black; Spacer 1 (0.08 * inch)].

Definition is_paragraph (b : block) : bool :=
  match b with Paragraph _ _ => true | _ => false end.

(** Every block that [m] appends satisfies [P]. *)
Definition emits (P : block -> Prop) {A : Type} (m : M world A) : Prop :=
  forall g, Forall P (snd (out m g)).

(** Neither a horizontal rule nor the spacer that follows one. *)
Definition no_separator (b : block) : Prop :=
  match b with
  | HRFlowable _ _ _ => False
  | Spacer _ h => ~ h == 0.08 * inch
  | Paragraph _ _ | TwoColumn _ => True
  end.

(** The four sections whose header is followed by the separator, with
    their keys and titles. *)
Definition separated_sections : list (string * string * M world unit) :=
  [ ("experience", "PROFESSIONAL EXPERIENCE", create_experience_section);
    ("education", "EDUCATION", create_education_section);
    ("skills", "TECHNICAL SKILLS", create_skills_section);
    ("certifications", "CERTIFICATIONS", create_certifications_section) ].

(** The generator once the record [v] is loaded. *)
Definition loaded (g : ResumeGenerator) (v : value) : ResumeGenerator :=
  {| input_file := input_file g; output_file := output_file g;
     data := v; styles := styles g |}.

(** The document of [generate_pdf]. *)
Definition document (g : ResumeGenerator) : SimpleDocTemplate :=
  {| filename := output_file g; pagesize := letter;
     rightMargin := 0.3 * inch; leftMargin := 0.3 * inch;
     topMargin := 0.2 * inch; bottomMargin := 0.2 * inch |}.

(** The generator that [main] constructs. *)
Definition default_generator (stringWidth : string -> string -> Q -> Q)
  (getSampleStyleSheet : StyleSheet) : ResumeGenerator :=
  new_ResumeGenerator stringWidth getSampleStyleSheet
                      "resume_data.yaml" "Generated_Resume.pdf".

(** Loading and generation both succeed: the input file exists, it loads,
    the six renderers run without error and [doc.build] accepts the
    blocks. *)
Definition succeeds (stringWidth : string -> string -> Q -> Q)
  (getSampleStyleSheet : StyleSheet) (path_exists : string -> bool)
  (yaml_safe_load : string -> result value)
  (doc_build : SimpleDocTemplate -> list block -> result unit) : Prop :=
  let generator := default_generator stringWidth getSampleStyleSheet in
  path_exists "resume_data.yaml" = true /\
  exists v : value,
    yaml_safe_load "resume_data.yaml" = Ok v /\
    fst (out render_sections (loaded generator v)) = Ok tt /\
    doc_build (document generator)
              (snd (out render_sections (loaded generator v))) = Ok tt.

(** ** Sample inputs

    A text measure, a sample style sheet and a few records on which the
    statements below are instantiated. *)

Definition sample_stringWidth (text font : string) (size : Q) : Q :=
  inject_Z (Z.of_nat (String.length text)) * size * 0.5.

(** A canvas that measures every string as 4.006 points and draws
    strings only. *)
Definition sample_measure (text : value) (font : string) (size : Q)
  : result float :=
  match text with
  | VStr _ => Ok 4.006%float
  | _ => Raise (AttributeError "decode")
  end.

Definition sample_canvas_error (op : TwoColumnLine.canvas_op) : option exn :=
  match op with
  | TwoColumnLine.drawString _ _ (VStr _) => None
  | TwoColumnLine.drawString _ _ _ => Some (AttributeError "decode")
  | _ => None
  end.


(** A sample of what the constructor of [Paragraph] refuses: an object that
    is not a string, and record text that contains the character [<]. *)
Definition sample_part_error (part : fpart) : bool :=
  match part with
  | Fmt (VStr s) => substring_of "<" s
  | Fmt _ | Lit _ => false
  end.

Definition sample_paragraph_error (text : ptext) (st : ParagraphStyle)
  : option exn :=
  match text with
  | Obj (VStr s) =>
      if substring_of "<" s then Some (ValueError "malformed markup")
      else None
  | Obj _ => Some (AttributeError "split")
  | FStr parts =>
      if existsb sample_part_error parts
      then Some (ValueError "malformed markup")
      else None
  end.

Definition sample_normal : ParagraphStyle :=
  {| name := "Normal"; fontName := "Helvetica"; fontSize := 10;
     textColor := black; alignment := TA_LEFT;
     spaceBefore := 0; spaceAfter := 0;
     leftIndent := 0; firstLineIndent := 0 |}.

Definition sample_sheet : StyleSheet :=
  fun k =>
    match k with
    | Heading1 =>
        {| name := "Heading1"; fontName := "Helvetica-Bold"; fontSize := 18;
           textColor := black; alignment := TA_LEFT;
           spaceBefore := 0; spaceAfter := 6;
           leftIndent := 0; firstLineIndent := 0 |}
    | Heading2 =>
        {| name := "Heading2"; fontName := "Helvetica-Bold"; fontSize := 14;
           textColor := black; alignment := TA_LEFT;
           spaceBefore := 12; spaceAfter := 6;
           leftIndent := 0; firstLineIndent := 0 |}
    | _ => sample_normal
    end.

Definition sample_styles : StyleSheet :=
  _setup_custom_styles sample_stringWidth sample_sheet.

(** The world of a generator that holds the record [d], before any block is
    appended. *)
Definition sample_world (d : value) : world :=
  {| self := loaded (default_generator sample_stringWidth sample_sheet) d;
     story := []; trace := [] |}.

Definition jane_personal : list (string * value) :=
  [("name", VStr "Jane Doe"); ("email", VStr "jane@x.com")].

Definition jane : list (string * value) :=
  [("personal", VDict jane_personal)].

Definition acme_entry : list (string * value) :=
  [ ("company", VStr "ACME"); ("title", VStr "Engineer");
    ("responsibilities", VList [VStr "Built things"; VStr "Led a team"]) ].

Definition three_skills : list (string * value) :=
  [("skills", VList (map VStr ["Python"; "Go"; "SQL"]))].

Definition skills_then_personal : list (string * value) :=
  [ ("skills", VList [VStr "Go"]); ("personal", VDict jane_personal) ].

Definition personal_then_skills : list (string * value) :=
  [ ("personal", VDict jane_personal); ("skills", VList [VStr "Go"]) ].

Definition one_project : list (string * value) :=
  [("projects", VList [VDict [("name", VStr "Resume generator")]])].

Definition empty_personal : list (string * value) :=
  [("personal", VDict [])].

(** ** Notions used in the further statements *)

(** The six top-level keys, and each renderer with the key it is guarded
    by. *)
Definition section_keys : list string :=
  ["personal"; "experience"; "education"; "skills"; "certifications";
   "projects"].

Definition keyed_renderers : list (string * M world unit) :=
  [ ("personal", create_personal_section);
    ("experience", create_experience_section);
    ("education", create_education_section);
    ("skills", create_skills_section);
    ("certifications", create_certifications_section);
    ("projects", create_projects_section) ].

(** Two objects that answer [k in v] and [v[k]] alike for the keys of
    [keys]. *)
Definition same_items_on (keys : list string) (v1 v2 : value) : Prop :=
  forall k, In k keys ->
            py_in k v1 = py_in k v2 /\ py_getitem v1 k = py_getitem v2 k.

Definition sim_on (keys : list string) (g1 g2 : ResumeGenerator) : Prop :=
  styles g1 = styles g2 /\ same_items_on keys (data g1) (data g2).

(** [m] returns and appends the same for two generators with the same
    styles whose records agree on [keys]. *)
Definition reads_only (keys : list string) {A : Type} (m : M world A)
  : Prop :=
  forall g1 g2, sim_on keys g1 g2 -> out m g1 = out m g2.

(** An object that is neither a string nor a container. *)
Definition is_scalar (v : value) : bool :=
  match v with
  | VNone | VBool _ | VInt _ => true
  | VStr _ | VList _ | VDict _ => false
  end.

(** The blocks of one experience entry that is a mapping. *)
Definition experience_blocks (sheet : StyleSheet)
  (e : list (string * value)) : list block :=
  pair_blocks (lookup "company" e) (lookup "location" e)
              bold_12 plain_11 (0.02 * inch) ++
  pair_blocks (lookup "title" e) (lookup "duration" e)
              (oblique_11 black) (oblique_11 grey) (0.04 * inch) ++
  match responsibilities e with
  | Ok items => map (bullet sheet) items ++ [Spacer 1 (0.05 * inch)]
  | Raise _ => []
  end.

(** The blocks of one education entry that is a mapping. *)
Definition education_blocks (e : list (string * value)) : list block :=
  pair_blocks (lookup "institution" e) (lookup "duration" e)
              bold_12 plain_11 (0.02 * inch) ++
  pair_blocks (lookup "degree" e) (lookup "location" e)
              (oblique_11 black) (oblique_11 grey) (0.05 * inch).

(** The line of a project field, when the field is there. *)
Definition field_line (p : list (string * value)) (k : string)
  (line : value -> block) : list block :=
  match lookup k p with
  | Some v => [line v]
  | None => []
  end.

(** The lines of one project that is a mapping. *)
Definition project_lines (sheet : StyleSheet) (p : list (string * value))
  : list block :=
  field_line p "name"
    (fun v => Paragraph (FStr [Lit "<b>"; Fmt v; Lit "</b>"])
                        (sheet JobTitle)) ++
  field_line p "description"
    (fun v => Paragraph (Obj v) (sheet Description)) ++
  field_line p "technologies"
    (fun v => Paragraph (FStr [Lit "<b>Technologies:</b> "; Fmt v])
                        (sheet Description)) ++
  field_line p "link"
    (fun v => Paragraph (FStr [Lit "<b>Link:</b> "; Fmt v])
                        (sheet Description)).

(** The blocks of one project that is a mapping. *)
Definition project_blocks (sheet : StyleSheet) (p : list (string * value))
  : list block :=
  project_lines sheet p ++ [Spacer 1 (0.1 * inch)].

Definition certification_line (sheet : StyleSheet) (cert : value) : block :=
  Paragraph (FStr [Lit "• "; Fmt cert]) (sheet Description).

(** The five guarded sections with their keys, titles and the blocks that
    follow the header before the body. *)
Definition headed_sections
  : list (string * string * list block * M world unit) :=
  [ ("experience", "PROFESSIONAL EXPERIENCE", separator_blocks,
     create_experience_section);
    ("education", "EDUCATION", separator_blocks, create_education_section);
    ("skills", "TECHNICAL SKILLS", separator_blocks, create_skills_section);
    ("certifications", "CERTIFICATIONS", separator_blocks,
     create_certifications_section);
    ("projects", "PROJECTS", [], create_projects_section) ].

Definition not_a_string (v : value) : Prop := forall s, v <> VStr s.

Definition initech_entry : list (string * value) :=
  [("company", VStr "Initech"); ("location", VStr "Austin")].

Definition school_entry : list (string * value) :=
  [ ("institution", VStr "MIT"); ("duration", VStr "2010 - 2014");
    ("degree", VStr "BSc") ].

Definition two_jobs : list (string * value) :=
  [("experience", VList (map VDict [acme_entry; initech_entry]))].

Definition one_school : list (string * value) :=
  [("education", VList (map VDict [school_entry]))].

Definition two_certifications : list (string * value) :=
  [("certifications", VList [VStr "CKA"; VInt 2024])].

Definition numeric_phone : list (string * value) :=
  [ ("personal",
     VDict [("name", VStr "Jane Doe"); ("phone", VInt 5551234567)]) ].

(** Records with text that the sample library refuses, and a line whose
    right text is a number. *)
Definition markup_skills : list (string * value) :=
  [("skills", VList [VStr "C++"; VStr "x<y"])].

Definition markup_then_certifications : list (string * value) :=
  [ ("certifications", VList [VStr "CKA"; VStr "CKS"]);
    ("skills", VList [VStr "x<y"]) ].

Definition null_name : list (string * value) :=
  [("personal", VDict [("name", VNone); ("email", VStr "jane@x.com")])].

Definition markup_certifications : list (string * value) :=
  [("certifications", VList [VStr "CKA"; VStr "Level<a"; VStr "CKS"])].

Definition markup_entry : list (string * value) :=
  [ ("company", VStr "Initech"); ("location", VStr "Austin");
    ("responsibilities",
     VList [VStr "Built things"; VStr "Kept cost<baseline";
            VStr "Led a team"]) ].

Definition null_description : list (string * value) :=
  [("name", VStr "Resume generator"); ("description", VNone)].

Definition year_line : TwoColumnLine.t :=
  TwoColumnLine.init (VStr "Engineer") (VInt 2020)
                     (oblique_11 black) (oblique_11 grey).

(** What the two handlers of [main] print for an exception. *)
Definition report (e : exn) : list event :=
  match e with
  | FileNotFoundError _ =>
      [ PrintError "Error: " e;
        Print "Please ensure resume_data.yaml exists with your resume data" ]
  | _ => [PrintError "Error generating resume: " e]
  end.

(** ** Computations that only append *)

Lemma with_story_same (w : world) : with_story w (story w) = w.
Proof. destruct w; reflexivity. Qed.

Lemma appender_ret {A : Type} (a : A) : appender (ret a).
Proof.
  intros w. unfold out, ret, with_story. simpl.
  rewrite app_nil_r. destruct w; reflexivity.
Qed.

Lemma appender_lift {A : Type} (r : result A) : appender (lift r).
Proof.
  intros w. unfold out, lift, with_story. simpl.
  rewrite app_nil_r. destruct w; reflexivity.
Qed.

Lemma appender_self_data : appender self_data.
Proof.
  intros w. unfold out, self_data, with_story. simpl.
  rewrite app_nil_r. destruct w; reflexivity.
Qed.

Lemma appender_self_styles (k : style_key) : appender (self_styles k).
Proof.
  intros w. unfold out, self_styles, with_story. simpl.
  rewrite app_nil_r. destruct w; reflexivity.
Qed.

Lemma appender_story_append (b : block) : appender (story_append b).
Proof. intros w. reflexivity. Qed.

Lemma appender_bind {A B : Type} (m : M world A) (k : A -> M world B) :
  appender m -> (forall a, appender (k a)) -> appender (bind m k).
Proof.
  intros Hm Hk w. unfold out, bind.
  rewrite (Hm w).
  rewrite (Hm {| self := self w; story := []; trace := [] |}).
  cbn [self story trace fst snd with_story app].
  destruct (fst (out m (self w))) as [a|e]; cbn [fst snd story].
  - rewrite (Hk a (with_story w (story w ++ snd (out m (self w))))).
    rewrite (Hk a (with_story {| self := self w; story := []; trace := [] |}
                     (snd (out m (self w))))).
    cbn [self story trace fst snd with_story].
    rewrite app_assoc. reflexivity.
  - reflexivity.
Qed.

Lemma appender_for_each {A : Type} (items : list A)
  (body : A -> M world unit) :
  (forall x, appender (body x)) -> appender (for_each items body).
Proof.
  intros Hb. induction items as [|x rest IH]; cbn [for_each].
  - apply appender_ret.
  - apply appender_bind; [apply Hb | intros _; exact IH].
Qed.

(** Walks a computation built from the operations above. *)
Ltac appender_step :=
  first
    [ apply appender_ret
    | apply appender_lift
    | apply appender_self_data
    | apply appender_self_styles
    | apply appender_story_append
    | apply appender_for_each
    | apply appender_bind
    | match goal with
      | |- appender (if ?c then _ else _) => destruct c
      | |- appender (match ?l with [] => _ | _ :: _ => _ end) => destruct l
      end ].

Ltac appender_walk :=
  unfold when, py_and, py_or, negate, truthy, for_in, data_in, data_at,
    key_in, item, new_Paragraph;
  repeat (intros; appender_step).

Lemma appender_add_section_separator : appender add_section_separator.
Proof. unfold add_section_separator. appender_walk. Qed.

Lemma appender_contact_field personal k ci :
  appender (contact_field personal k ci).
Proof. unfold contact_field. appender_walk. Qed.

Lemma appender_experience_entry exp : appender (experience_entry exp).
Proof. unfold experience_entry. appender_walk. Qed.

Lemma appender_education_entry edu : appender (education_entry edu).
Proof. unfold education_entry. appender_walk. Qed.

Lemma appender_project_entry project : appender (project_entry project).
Proof. unfold project_entry. appender_walk. Qed.

Lemma appender_personal : appender create_personal_section.
Proof.
  unfold create_personal_section.
  repeat first [ apply appender_contact_field | progress appender_walk ].
Qed.

Lemma appender_experience : appender create_experience_section.
Proof.
  unfold create_experience_section.
  repeat first [ apply appender_add_section_separator
               | apply appender_experience_entry | progress appender_walk ].
Qed.

Lemma appender_education : appender create_education_section.
Proof.
  unfold create_education_section.
  repeat first [ apply appender_add_section_separator
               | apply appender_education_entry | progress appender_walk ].
Qed.

Lemma appender_skills : appender create_skills_section.
Proof.
  unfold create_skills_section.
  repeat first [ apply appender_add_section_separator
               | progress appender_walk ].
Qed.

Lemma appender_certifications : appender create_certifications_section.
Proof.
  unfold create_certifications_section.
  repeat first [ apply appender_add_section_separator
               | progress appender_walk ].
Qed.

Lemma appender_projects : appender create_projects_section.
Proof.
  unfold create_projects_section.
  repeat first [ apply appender_project_entry | progress appender_walk ].
Qed.

Lemma appender_section_renderers : Forall appender section_renderers.
Proof.
  unfold section_renderers.
  repeat constructor;
    auto using appender_personal, appender_experience, appender_education,
      appender_skills, appender_certifications, appender_projects.
Qed.

Lemma appender_result {A : Type} (m : M world A) (w : world) :
  appender m -> fst (m w) = fst (out m (self w)).
Proof. intros H. rewrite (H w). reflexivity. Qed.

Lemma appender_world {A : Type} (m : M world A) (w : world) :
  appender m ->
  snd (m w) = with_story w (story w ++ snd (out m (self w))).
Proof. intros H. rewrite (H w). reflexivity. Qed.

Lemma appender_appended {A : Type} (m : M world A) (w : world) :
  appender m -> appended m w = snd (out m (self w)).
Proof.
  intros H. unfold appended. rewrite (appender_world m w H).
  cbn [with_story story].
  rewrite skipn_app, skipn_all, Nat.sub_diag. reflexivity.
Qed.

Lemma out_bind {A B : Type} (m : M world A) (k : A -> M world B)
  (g : ResumeGenerator) :
  appender m -> (forall a, appender (k a)) ->
  out (bind m k) g =
    match fst (out m g) with
    | Ok a => (fst (out (k a) g), snd (out m g) ++ snd (out (k a) g))
    | Raise e => (Raise e, snd (out m g))
    end.
Proof.
  intros Hm Hk.
  unfold out at 1. unfold bind.
  rewrite (Hm {| self := g; story := []; trace := [] |}).
  cbn [self story trace fst snd with_story app].
  destruct (fst (out m g)) as [a|e]; [|reflexivity].
  rewrite (Hk a). reflexivity.
Qed.

Lemma appender_render_sections : appender render_sections.
Proof.
  unfold render_sections.
  repeat (apply appender_bind; [|intros _]);
    auto using appender_personal, appender_experience, appender_education,
      appender_skills, appender_certifications, appender_projects.
Qed.

Lemma build_story_out (w : world) :
  build_story w =
    (fst (out render_sections (self w)),
     with_story w (snd (out render_sections (self w)))).
Proof.
  unfold build_story, bind.
  rewrite (appender_render_sections _). reflexivity.
Qed.

(** ** Reading the record through its keys only *)

Lemma respects_ret {A : Type} (a : A) : respects (ret a).
Proof. intros g1 g2 _. reflexivity. Qed.

Lemma respects_lift {A : Type} (r : result A) : respects (lift r).
Proof. intros g1 g2 _. reflexivity. Qed.

Lemma respects_story_append (b : block) : respects (story_append b).
Proof. intros g1 g2 _. reflexivity. Qed.

Lemma respects_self_styles (k : style_key) : respects (self_styles k).
Proof.
  intros g1 g2 [Hs _]. unfold out, self_styles. cbn. rewrite Hs. reflexivity.
Qed.

Lemma respects_data_in (k : string) : respects (data_in k).
Proof.
  intros g1 g2 [_ Hd]. unfold out, data_in, bind, self_data, lift. cbn.
  destruct (Hd k) as [H _]. rewrite H. reflexivity.
Qed.

Lemma respects_data_at (k : string) : respects (data_at k).
Proof.
  intros g1 g2 [_ Hd]. unfold out, data_at, bind, self_data, lift. cbn.
  destruct (Hd k) as [_ H]. rewrite H. reflexivity.
Qed.

Lemma respects_bind {A B : Type} (m : M world A) (k : A -> M world B) :
  appender m -> (forall a, appender (k a)) ->
  respects m -> (forall a, respects (k a)) -> respects (bind m k).
Proof.
  intros Am Ak Rm Rk g1 g2 Hg.
  rewrite !out_bind by assumption.
  rewrite (Rm g1 g2 Hg).
  destruct (fst (out m g2)); [|reflexivity].
  rewrite (Rk a g1 g2 Hg). reflexivity.
Qed.

Lemma respects_for_each {A : Type} (items : list A)
  (body : A -> M world unit) :
  (forall x, appender (body x)) -> (forall x, respects (body x)) ->
  respects (for_each items body).
Proof.
  intros Ab Rb. induction items as [|x rest IH]; cbn [for_each].
  - apply respects_ret.
  - apply respects_bind; auto.
    intros _. apply appender_for_each. exact Ab.
Qed.

Ltac appender_solve :=
  solve
    [ repeat first
        [ apply appender_contact_field
        | apply appender_add_section_separator
        | apply appender_experience_entry
        | apply appender_education_entry
        | apply appender_project_entry
        | progress appender_walk ] ].

Ltac respects_step :=
  first
    [ apply respects_ret
    | apply respects_lift
    | apply respects_data_in
    | apply respects_data_at
    | apply respects_self_styles
    | apply respects_story_append
    | apply respects_for_each
    | apply respects_bind
    | match goal with
      | |- respects (if ?c then _ else _) => destruct c
      | |- respects (match ?l with [] => _ | _ :: _ => _ end) => destruct l
      | |- appender _ => appender_solve
      end ].

Ltac respects_walk :=
  unfold when, py_and, py_or, negate, truthy, for_in, key_in, item,
    new_Paragraph;
  repeat (intros; respects_step).

Lemma respects_add_section_separator : respects add_section_separator.
Proof. unfold add_section_separator. respects_walk. Qed.

Lemma respects_contact_field personal k ci :
  respects (contact_field personal k ci).
Proof. unfold contact_field. respects_walk. Qed.

Lemma respects_experience_entry exp : respects (experience_entry exp).
Proof. unfold experience_entry. respects_walk. Qed.

Lemma respects_education_entry edu : respects (education_entry edu).
Proof. unfold education_entry. respects_walk. Qed.

Lemma respects_project_entry project : respects (project_entry project).
Proof. unfold project_entry. respects_walk. Qed.

Ltac respects_solve :=
  repeat first
    [ apply respects_contact_field
    | apply respects_add_section_separator
    | apply respects_experience_entry
    | apply respects_education_entry
    | apply respects_project_entry
    | progress respects_walk ].

Lemma respects_personal : respects create_personal_section.
Proof. unfold create_personal_section. respects_solve. Qed.

Lemma respects_experience : respects create_experience_section.
Proof. unfold create_experience_section. respects_solve. Qed.

Lemma respects_education : respects create_education_section.
Proof. unfold create_education_section. respects_solve. Qed.

Lemma respects_skills : respects create_skills_section.
Proof. unfold create_skills_section. respects_solve. Qed.

Lemma respects_certifications : respects create_certifications_section.
Proof. unfold create_certifications_section. respects_solve. Qed.

Lemma respects_projects : respects create_projects_section.
Proof. unfold create_projects_section. respects_solve. Qed.

Lemma respects_render_sections : respects render_sections.
Proof.
  unfold render_sections.
  repeat (apply respects_bind;
          [ auto using appender_personal, appender_experience,
              appender_education, appender_skills, appender_certifications
          | intros _;
            repeat (apply appender_bind; [|intros _]);
            auto using appender_experience, appender_education,
              appender_skills, appender_certifications, appender_projects
          | auto using respects_personal, respects_experience,
              respects_education, respects_skills, respects_certifications
          | intros _ ]).
  apply respects_projects.
Qed.

Lemma NoDup_keys_perm (d1 d2 : list (string * value)) :
  Permutation d1 d2 -> NoDup (map fst d1) -> NoDup (map fst d2).
Proof.
  intros Hp Hn.
  apply (Permutation_NoDup (l := map fst d1)); [|exact Hn].
  apply Permutation_map. exact Hp.
Qed.

Lemma lookup_perm (d1 d2 : list (string * value)) :
  Permutation d1 d2 -> NoDup (map fst d1) ->
  forall k, lookup k d1 = lookup k d2.
Proof.
  induction 1 as [|[k0 v0] l l' Hp IH|[k1 v1] [k2 v2] l|l l' l'' H1 IH1 H2 IH2];
    intros Hn k.
  - reflexivity.
  - cbn. destruct (String.eqb k k0); [reflexivity|].
    apply IH. inversion Hn; assumption.
  - cbn. destruct (String.eqb k k2) eqn:E2, (String.eqb k k1) eqn:E1;
      try reflexivity.
    apply String.eqb_eq in E1, E2. subst.
    inversion Hn as [|? ? Hnotin _]. exfalso. apply Hnotin. left. reflexivity.
  - rewrite IH1 by assumption. apply IH2.
    eapply NoDup_keys_perm; eassumption.
Qed.

Lemma same_items_perm (d1 d2 : list (string * value)) :
  Permutation d1 d2 -> NoDup (map fst d1) ->
  same_items (VDict d1) (VDict d2).
Proof.
  intros Hp Hn k. cbn. unfold has_key.
  rewrite (lookup_perm d1 d2 Hp Hn k). split; reflexivity.
Qed.

(** ** Order of the sections *)

(** C3.  Two records that hold the same items under their top-level keys,
    listed in different orders, give the same result and the same block
    sequence.  The block sequence of every run is made of the blocks of
    the Personal, Experience, Education, Skills, Certifications and
    Projects renderers, in that order: those of all six when none raises,
    and otherwise those of the renderers before the first one that raises
    followed by what that one appended before it raised, with its
    exception as the result. *)
Theorem section_order_fixed :
  (forall (w1 w2 : world) (d1 d2 : list (string * value)),
      data (self w1) = VDict d1 -> data (self w2) = VDict d2 ->
      styles (self w1) = styles (self w2) ->
      NoDup (map fst d1) -> Permutation d1 d2 ->
      fst (build_story w1) = fst (build_story w2) /\
      story (snd (build_story w1)) = story (snd (build_story w2)))
  /\
  (forall w : world,
      fst (build_story w) = fst (run_in_order section_renderers (self w)) /\
      story (snd (build_story w)) =
        snd (run_in_order section_renderers (self w)) /\
      (fst (build_story w) = Ok tt ->
       Forall (fun m => fst (out m (self w)) = Ok tt) section_renderers /\
       story (snd (build_story w)) =
         List.concat (map (fun m => snd (out m (self w)))
                          section_renderers))).
Proof.
  split.
  - intros w1 w2 d1 d2 H1 H2 Hs Hn Hp.
    rewrite !build_story_out. cbn [fst snd with_story story].
    assert (Hsim : sim (self w1) (self w2)).
    { split; [exact Hs|]. rewrite H1, H2. apply same_items_perm; assumption. }
    rewrite (respects_render_sections _ _ Hsim). split; reflexivity.
  - intros w. rewrite build_story_out. cbn [fst snd with_story story].
    set (g := self w). unfold render_sections, section_renderers.
    cbn [run_in_order map List.concat].
    pose proof appender_personal as Ap.
    pose proof appender_experience as Ax.
    pose proof appender_education as Ae.
    pose proof appender_skills as As.
    pose proof appender_certifications as Ac.
    pose proof appender_projects as Aj.
    rewrite out_bind;
      [|assumption
       |intros _; repeat (apply appender_bind; [|intros _]); assumption].
    destruct (fst (out create_personal_section g)) as [[]|e] eqn:E1;
      [|repeat split; discriminate].
    rewrite out_bind;
      [|assumption
       |intros _; repeat (apply appender_bind; [|intros _]); assumption].
    destruct (fst (out create_experience_section g)) as [[]|e] eqn:E2;
      [|repeat split; discriminate].
    rewrite out_bind;
      [|assumption
       |intros _; repeat (apply appender_bind; [|intros _]); assumption].
    destruct (fst (out create_education_section g)) as [[]|e] eqn:E3;
      [|repeat split; discriminate].
    rewrite out_bind;
      [|assumption
       |intros _; repeat (apply appender_bind; [|intros _]); assumption].
    destruct (fst (out create_skills_section g)) as [[]|e] eqn:E4;
      [|repeat split; discriminate].
    rewrite out_bind; [|assumption|intros _; assumption].
    destruct (fst (out create_certifications_section g)) as [[]|e] eqn:E5;
      [|repeat split; discriminate].
    cbn [fst snd].
    destruct (fst (out create_projects_section g)) as [[]|e] eqn:E6;
      cbn [fst snd]; rewrite ?app_nil_r;
      [|repeat split; discriminate].
    split; [reflexivity|]. split; [reflexivity|]. intros _.
    split; [|reflexivity]. repeat constructor; cbv beta; assumption.
Qed.

(** ** Frame of the renderers *)

(** C10.  Each of the six section renderers, run in any world, returns a
    world with the same generator (and so the same loaded record) and a
    block list that extends the previous one: the blocks that were there
    come first, unchanged, and the rest are the blocks it appended. *)
Theorem renderers_only_append :
  Forall
    (fun m : M world unit =>
       forall w : world,
         self (snd (m w)) = self w /\
         data (self (snd (m w))) = data (self w) /\
         firstn (List.length (story w)) (story (snd (m w))) = story w /\
         story (snd (m w)) = story w ++ appended m w)
    section_renderers.
Proof.
  eapply Forall_impl; [|exact appender_section_renderers].
  intros m Hm w. cbv beta.
  rewrite (appender_appended m w Hm), (appender_world m w Hm).
  cbn [with_story self story].
  repeat split.
  rewrite firstn_app, firstn_all, Nat.sub_diag. cbn. apply app_nil_r.
Qed.

(** ** Evaluation in a given world *)

Ltac run :=
  unfold create_personal_section, create_experience_section,
    create_education_section, create_skills_section,
    create_certifications_section, create_projects_section,
    experience_entry, education_entry, project_entry, contact_field,
    add_section_separator, when, py_and, py_or, negate, truthy, for_in,
    data_in, data_at, key_in, item, new_Paragraph, bind, ret, lift,
    self_data, self_styles, story_append;
  cbn [fst snd self story trace data styles py_in py_getitem].

(** Names the fields of the world [w] whose record is known by [Hd]. *)
Ltac open_world w Hd :=
  let i := fresh "input" in
  let o := fresh "output" in
  let dt := fresh "dt" in
  let sheet := fresh "sheet" in
  let sy := fresh "blocks" in
  let tr := fresh "events" in
  destruct w as [[i o dt sheet] sy tr];
  cbn [self data] in Hd; subst dt.

(** ** Omitted sections *)

(** For a record that is a mapping: the Personal renderer does nothing when
    its key is absent, and each of the other five does nothing when its key
    is absent or holds an empty value. *)
Lemma section_omitted (w : world) (d : list (string * value)) :
  data (self w) = VDict d ->
  (lookup "personal" d = None -> create_personal_section w = (Ok tt, w)) /\
  Forall (fun km => absent_or_empty (fst km) d = true ->
                    snd km w = (Ok tt, w))
         guarded_sections.
Proof.
  intros Hd. open_world w Hd. split.
  - intros Hl. run. unfold has_key. rewrite Hl. reflexivity.
  - unfold guarded_sections, absent_or_empty.
    repeat (apply Forall_cons; [|]); try apply Forall_nil;
      cbn [fst snd];
      match goal with
      | |- context [lookup ?k d] => destruct (lookup k d) as [v|] eqn:E
      end;
      intros H; run; unfold has_key; repeat (rewrite ?E; cbn);
      try reflexivity;
      destruct (py_truthy v); try discriminate; reflexivity.
Qed.

(** C1, at a record whose [personal] mapping is empty: the Personal renderer
    returns normally and appends one block, the 0.03 inch spacer that ends
    the section, where the five other renderers append nothing for an empty
    value. *)
Theorem personal_empty_appends_spacer (w : world)
  (d : list (string * value)) :
  data (self w) = VDict d ->
  lookup "personal" d = Some (VDict []) ->
  create_personal_section w =
    (Ok tt, with_story w (story w ++ [Spacer 1 (0.03 * inch)])).
Proof.
  intros Hd Hl. open_world w Hd. run. unfold has_key. rewrite Hl. cbn.
  rewrite Hl. reflexivity.
Qed.

(** Closes a goal whose two sides differ in how the appends are nested. *)
Ltac same_story :=
  unfold with_story; cbn [self story trace fst snd];
  repeat rewrite <- app_assoc; cbn [app];
  repeat rewrite app_nil_r; reflexivity.

(** ** Entries of the experience and education sections *)

Lemma built_accepted (bs : list block) :
  Forall accepted bs -> built bs = (Ok tt, bs).
Proof.
  induction 1 as [|b bs Hb _ IH]; cbn [built]; [reflexivity|].
  unfold accepted in Hb. rewrite Hb, IH. reflexivity.
Qed.

Lemma built_incl (bs : list block) : incl (snd (built bs)) bs.
Proof.
  induction bs as [|b bs IH]; cbn [built]; [intros x []|].
  destruct (block_error b); cbn [snd]; [intros x []|].
  intros x [<-|Hx]; [left; reflexivity|right; apply IH, Hx].
Qed.

Lemma for_each_built {A : Type} (f : A -> ResumeGenerator -> block)
  (body : A -> M world unit) (items : list A) (w : world) :
  (forall x w',
      body x w' =
      match block_error (f x (self w')) with
      | None => (Ok tt, with_story w' (story w' ++ [f x (self w')]))
      | Some e => (Raise e, w')
      end) ->
  for_each items body w =
    (fst (built (map (fun x => f x (self w)) items)),
     with_story w
       (story w ++ snd (built (map (fun x => f x (self w)) items)))).
Proof.
  intros Hb. revert w. induction items as [|x rest IH]; intros w.
  - cbn. rewrite app_nil_r, with_story_same. reflexivity.
  - cbn [for_each map built]. unfold bind. rewrite Hb.
    destruct (block_error (f x (self w))) as [e|].
    + cbn [fst snd]. rewrite app_nil_r, with_story_same. reflexivity.
    + rewrite IH. cbn [with_story self story trace fst snd].
      rewrite <- app_assoc. reflexivity.
Qed.

(** The bullets of an entry and the spacer that closes it: the bullets
    built before the first refused one, and the spacer when none is. *)
Lemma experience_entry_dict (e : list (string * value)) (w : world) :
  experience_entry (VDict e) w =
    match responsibilities e with
    | Raise x =>
        (Raise x,
         with_story w
           (story w ++
            pair_blocks (lookup "company" e) (lookup "location" e)
                        bold_12 plain_11 (0.02 * inch) ++
            pair_blocks (lookup "title" e) (lookup "duration" e)
                        (oblique_11 black) (oblique_11 grey) (0.04 * inch)))
    | Ok items =>
        let r := built (map (bullet (styles (self w))) items) in
        (fst r,
         with_story w
           (story w ++
            pair_blocks (lookup "company" e) (lookup "location" e)
                        bold_12 plain_11 (0.02 * inch) ++
            pair_blocks (lookup "title" e) (lookup "duration" e)
                        (oblique_11 black) (oblique_11 grey) (0.04 * inch) ++
            snd r ++
            match fst r with
            | Ok _ => [Spacer 1 (0.05 * inch)]
            | Raise _ => []
            end))
    end.
Proof.
  unfold responsibilities. destruct w as [g blocks events].
  destruct (lookup "company" e) as [c|] eqn:Ec;
  destruct (lookup "location" e) as [l|] eqn:El;
  destruct (lookup "title" e) as [t|] eqn:Et;
  destruct (lookup "duration" e) as [u|] eqn:Eu;
  destruct (lookup "responsibilities" e) as [rs|] eqn:Er;
  try destruct (py_iter rs) as [items|x] eqn:Ei;
  run; unfold has_key; repeat (rewrite ?Ec, ?El, ?Et, ?Eu, ?Er, ?Ei; cbn);
  try (rewrite (for_each_built (fun r g => bullet (styles g) r))
         by (intros; cbn; destruct (paragraph_error _ _); reflexivity);
       cbn [self story trace fst snd with_story];
       destruct (fst (built (map (bullet (styles g)) items))) as [[]|?]);
  same_story.
Qed.

(** What [education_entry] does for an entry that is a mapping. *)
Lemma education_entry_dict (e : list (string * value)) (w : world) :
  education_entry (VDict e) w =
    (Ok tt,
     with_story w
       (story w ++
        pair_blocks (lookup "institution" e) (lookup "duration" e)
                    bold_12 plain_11 (0.02 * inch) ++
        pair_blocks (lookup "degree" e) (lookup "location" e)
                    (oblique_11 black) (oblique_11 grey) (0.05 * inch))).
Proof.
  destruct w as [g blocks events].
  destruct (lookup "institution" e) as [c|] eqn:Ec;
  destruct (lookup "duration" e) as [u|] eqn:Eu;
  destruct (lookup "degree" e) as [t|] eqn:Et;
  destruct (lookup "location" e) as [l|] eqn:El;
  run; unfold has_key; repeat (rewrite ?Ec, ?El, ?Et, ?Eu; cbn);
  same_story.
Qed.

Lemma appended_run {A : Type} (m : M world A) (w : world) (r : result A)
  (bs : list block) :
  m w = (r, with_story w (story w ++ bs)) -> appended m w = bs.
Proof.
  intros H. unfold appended. rewrite H. cbn [snd with_story story].
  rewrite skipn_app, skipn_all, Nat.sub_diag. reflexivity.
Qed.



Lemma experience_entry_appended (e : list (string * value)) (w : world) :
  appended (experience_entry (VDict e)) w =
    pair_blocks (lookup "company" e) (lookup "location" e)
                bold_12 plain_11 (0.02 * inch) ++
    pair_blocks (lookup "title" e) (lookup "duration" e)
                (oblique_11 black) (oblique_11 grey) (0.04 * inch) ++
    entry_tail (styles (self w)) e.
Proof.
  pose proof (experience_entry_dict e w) as H. unfold entry_tail.
  destruct (responsibilities e) as [items|x].
  - cbv zeta in H. exact (appended_run _ _ _ _ H).
  - rewrite (appended_run _ _ _ _ H), app_nil_r. reflexivity.
Qed.



(** ** Paired fields *)


(** ** The two-column line *)


(** ** The personal section *)

Arguments str_join : simpl never.

(** What [create_personal_section] does when [personal] is a mapping: the
    name heading, unless the library refuses it; then the contact line,
    unless the join raises or the library refuses it; then the spacer. *)
Lemma personal_dict (w : world) (d p : list (string * value)) :
  data (self w) = VDict d ->
  lookup "personal" d = Some (VDict p) ->
  create_personal_section w =
    match fst (built (name_blocks (styles (self w)) p)) with
    | Raise x => (Raise x, w)
    | Ok _ =>
        match contact_blocks (styles (self w)) p with
        | Raise x =>
            (Raise x,
             with_story w (story w ++ name_blocks (styles (self w)) p))
        | Ok cb =>
            (fst (built cb),
             with_story w
               (story w ++ name_blocks (styles (self w)) p ++
                snd (built cb) ++
                match fst (built cb) with
                | Ok _ => [Spacer 1 (0.03 * inch)]
                | Raise _ => []
                end))
        end
    end.
Proof.
  intros Hd Hp. open_world w Hd.
  unfold contact_blocks, name_blocks, present_contacts, contact_keys.
  cbn [flat_map].
  destruct (lookup "name" p) as [n|] eqn:En;
  destruct (lookup "email" p) as [v1|] eqn:E1;
  destruct (lookup "phone" p) as [v2|] eqn:E2;
  destruct (lookup "location" p) as [v3|] eqn:E3;
  destruct (lookup "linkedin" p) as [v4|] eqn:E4;
  destruct (lookup "github" p) as [v5|] eqn:E5;
  destruct (lookup "website" p) as [v6|] eqn:E6;
  run;
  repeat (unfold has_key; rewrite ?Hp, ?En, ?E1, ?E2, ?E3, ?E4, ?E5, ?E6; cbn);
  repeat (match goal with
          | |- context [paragraph_error (Obj ?v) (sheet ?k)] =>
              destruct (paragraph_error (Obj v) (sheet k))
          | |- context [str_join ?s ?l] => destruct (str_join s l)
          end; cbn);
  same_story.
Qed.

Lemma str_join_strings (sep : string) (ci : list value) (texts : list string) :
  strings_of ci = Ok texts -> str_join sep ci = Ok (String.concat sep texts).
Proof. unfold str_join. intros ->. reflexivity. Qed.



(** ** The skills section *)



(** ** Bullets *)

Lemma filter_pair_blocks (left right : option value)
  (ls rs : TwoColumnLine.style) (gap : Q) (rest : list block) :
  filter is_paragraph (pair_blocks left right ls rs gap ++ rest) =
  filter is_paragraph rest.
Proof. destruct left, right; reflexivity. Qed.

Lemma filter_entry_tail (sheet : StyleSheet) (e : list (string * value)) :
  filter is_paragraph (entry_tail sheet e) =
  match responsibilities e with
  | Ok items => snd (built (map (bullet sheet) items))
  | Raise _ => []
  end.
Proof.
  unfold entry_tail. destruct (responsibilities e) as [items|x];
    [|reflexivity].
  induction items as [|r items IH]; cbn [map built].
  - reflexivity.
  - destruct (block_error (bullet sheet r)); [reflexivity|].
    cbn [fst snd app filter]. change (is_paragraph (bullet sheet r)) with true.
    cbv iota. rewrite IH. reflexivity.
Qed.

(** C8.  The [BulletPoint] style set up by the generator is in Helvetica 11,
    its left indent is the width of ["- "] measured in that font and size,
    and its first-line indent is the opposite of the left indent.  Every
    paragraph of an experience entry is a bullet, the marker ["- "]
    followed by a responsibility, in the [BulletPoint] style: they are the
    bullets built for the responsibilities, in order, up to the first one
    that the library refuses, and so one per responsibility when it accepts
    them all. *)
Theorem bullet_hanging_indent
  (stringWidth : string -> string -> Q -> Q) (sample : StyleSheet) :
  let sheet := _setup_custom_styles stringWidth sample in
  let bp := sheet BulletPoint in
  fontName bp = "Helvetica" /\
  fontSize bp = 11 /\
  leftIndent bp = stringWidth "- " (fontName bp) (fontSize bp) /\
  firstLineIndent bp = - leftIndent bp /\
  (forall (w : world) (e : list (string * value)),
      styles (self w) = sheet ->
      Forall (fun b => exists r, b = Paragraph (FStr [Lit "- "; Fmt r]) bp)
             (filter is_paragraph
                     (appended (experience_entry (VDict e)) w))) /\
  (forall (w : world) (e : list (string * value)) (items : list value),
      let bullets :=
        map (fun r => Paragraph (FStr [Lit "- "; Fmt r]) bp) items in
      styles (self w) = sheet ->
      responsibilities e = Ok items ->
      filter is_paragraph (appended (experience_entry (VDict e)) w) =
        snd (built bullets) /\
      (Forall accepted bullets ->
       filter is_paragraph (appended (experience_entry (VDict e)) w) =
         bullets)).
Proof.
  intros sheet bp. repeat (split; [reflexivity|]).
  assert (Hf : forall w e,
             styles (self w) = sheet ->
             filter is_paragraph (appended (experience_entry (VDict e)) w) =
             match responsibilities e with
             | Ok items => snd (built (map (bullet sheet) items))
             | Raise _ => []
             end).
  { intros w e Hs. rewrite experience_entry_appended, Hs.
    rewrite !filter_pair_blocks. apply filter_entry_tail. }
  split.
  - intros w e Hs. rewrite (Hf w e Hs).
    destruct (responsibilities e) as [items|x]; [|constructor].
    apply Forall_forall. intros b Hb.
    apply built_incl, in_map_iff in Hb. destruct Hb as (r & <- & _).
    exists r. reflexivity.
  - intros w e items bullets Hs Hr. rewrite (Hf w e Hs), Hr.
    split; [reflexivity|].
    intros Ha. change (map (bullet sheet) items) with bullets.
    rewrite (built_accepted _ Ha). reflexivity.
Qed.

(** ** Headers and separators *)

Lemma emits_ret (P : block -> Prop) {A : Type} (a : A) : emits P (ret a).
Proof. intros g. constructor. Qed.

Lemma emits_lift (P : block -> Prop) {A : Type} (r : result A) :
  emits P (lift r).
Proof. intros g. constructor. Qed.

Lemma emits_self_styles (P : block -> Prop) (k : style_key) :
  emits P (self_styles k).
Proof. intros g. constructor. Qed.

Lemma emits_story_append (P : block -> Prop) (b : block) :
  P b -> emits P (story_append b).
Proof. intros H g. cbn. constructor; [exact H|constructor]. Qed.

Lemma emits_bind (P : block -> Prop) {A B : Type} (m : M world A)
  (k : A -> M world B) :
  appender m -> (forall a, appender (k a)) ->
  emits P m -> (forall a, emits P (k a)) -> emits P (bind m k).
Proof.
  intros Am Ak Em Ek g. rewrite out_bind by assumption.
  destruct (fst (out m g)) as [a|x]; cbn [snd]; [|apply Em].
  apply Forall_app. split; [apply Em | apply Ek].
Qed.

Lemma emits_for_each (P : block -> Prop) {A : Type} (items : list A)
  (body : A -> M world unit) :
  (forall x, appender (body x)) -> (forall x, emits P (body x)) ->
  emits P (for_each items body).
Proof.
  intros Ab Eb. induction items as [|x rest IH]; cbn [for_each].
  - apply emits_ret.
  - apply emits_bind; auto.
    intros _. apply appender_for_each. exact Ab.
Qed.

Lemma emits_new_Paragraph (P : block -> Prop) (t : ptext)
  (st : ParagraphStyle) :
  P (Paragraph t st) ->
  emits P (p <- new_Paragraph t st ;; story_append p).
Proof.
  intros H g. unfold out, bind, new_Paragraph, lift, story_append.
  destruct (paragraph_error t st); cbn; repeat constructor. exact H.
Qed.

Ltac emits_step :=
  first
    [ apply emits_ret
    | apply emits_new_Paragraph
    | apply emits_lift
    | apply emits_self_styles
    | apply emits_story_append
    | apply emits_for_each
    | apply emits_bind
    | match goal with
      | |- emits _ (if ?c then _ else _) => destruct c
      | |- appender _ => appender_solve
      end ].

Ltac emits_walk :=
  unfold when, py_and, py_or, negate, truthy, for_in, key_in, item;
  repeat (intros; emits_step).

Lemma project_entry_no_separator (project : value) :
  emits no_separator (project_entry project).
Proof.
  unfold project_entry. emits_walk; cbn; try exact I.
  intros H. discriminate H.
Qed.

Lemma project_entries_no_separator (entries : value) :
  emits no_separator (for_in entries project_entry).
Proof.
  unfold for_in.
  apply emits_bind;
    [ appender_solve | appender_solve | apply emits_lift | intros items ].
  apply emits_for_each; intros project.
  - apply appender_project_entry.
  - apply project_entry_no_separator.
Qed.

Lemma out_guard_pass (k : string) (g : ResumeGenerator)
  (d : list (string * value)) (v : value) :
  data g = VDict d -> lookup k d = Some v -> py_truthy v = true ->
  out (py_or (negate (data_in k)) (negate (truthy (data_at k)))) g =
    (Ok false, []).
Proof.
  intros Hd Hl Ht. destruct g as [i o dt sheet]. cbn [data] in Hd. subst dt.
  unfold out. run. repeat (unfold has_key; rewrite ?Hl, ?Ht; cbn).
  reflexivity.
Qed.

Lemma out_data_at (k : string) (g : ResumeGenerator)
  (d : list (string * value)) (v : value) :
  data g = VDict d -> lookup k d = Some v -> out (data_at k) g = (Ok v, []).
Proof.
  intros Hd Hl. destruct g as [i o dt sheet]. cbn [data] in Hd. subst dt.
  unfold out. run. rewrite Hl. reflexivity.
Qed.

Lemma out_self_styles (k : style_key) (g : ResumeGenerator) :
  out (self_styles k) g = (Ok (styles g k), []).
Proof. reflexivity. Qed.

Lemma out_story_append (b : block) (g : ResumeGenerator) :
  out (story_append b) g = (Ok tt, [b]).
Proof. reflexivity. Qed.

Lemma out_add_section_separator (g : ResumeGenerator) :
  out add_section_separator g = (Ok tt, separator_blocks).
Proof. reflexivity. Qed.

(** Runs the guard and the header of a section whose key holds [v]. *)
Ltac enter_section Hd Hl Ht :=
  rewrite out_bind by appender_solve;
  rewrite (out_guard_pass _ _ _ _ Hd Hl Ht); cbn [fst snd app];
  rewrite out_bind by appender_solve;
  rewrite out_self_styles; cbn [fst snd app];
  rewrite out_bind by appender_solve;
  rewrite out_story_append; cbn [fst snd app].

(** C9.  For a record that is a mapping.  When [projects] holds a
    non-empty value, the blocks of the projects section start with the
    header, and no block after it is a horizontal rule or the 0.08 inch
    spacer that follows one.  When the key of the experience, education,
    skills or certifications section holds a non-empty value, the blocks
    of that section start with its header, the horizontal rule and the
    spacer, in this order. *)
Theorem projects_header_without_separator (w : world)
  (d : list (string * value)) :
  data (self w) = VDict d ->
  (forall v : value,
      lookup "projects" d = Some v -> py_truthy v = true ->
      exists rest : list block,
        appended create_projects_section w =
          section_header (styles (self w)) "PROJECTS" :: rest /\
        Forall no_separator rest) /\
  Forall
    (fun s : string * string * M world unit =>
       let '(k, title, m) := s in
       forall v : value,
         lookup k d = Some v -> py_truthy v = true ->
         exists rest : list block,
           appended m w =
             section_header (styles (self w)) title ::
             separator_blocks ++ rest)
    separated_sections.
Proof.
  intros Hd. split.
  - intros v Hl Ht.
    rewrite (appender_appended _ w appender_projects).
    unfold create_projects_section.
    enter_section Hd Hl Ht.
    rewrite out_bind by appender_solve.
    rewrite (out_data_at _ _ _ _ Hd Hl). cbn [fst snd app].
    eexists. split; [reflexivity|].
    apply project_entries_no_separator.
  - unfold separated_sections.
    repeat (apply Forall_cons; [|]); try apply Forall_nil;
      intros v Hl Ht.
    + rewrite (appender_appended _ w appender_experience).
      unfold create_experience_section. enter_section Hd Hl Ht.
      rewrite out_bind by appender_solve.
      rewrite out_add_section_separator. cbn [fst snd app].
      eexists. reflexivity.
    + rewrite (appender_appended _ w appender_education).
      unfold create_education_section. enter_section Hd Hl Ht.
      rewrite out_bind by appender_solve.
      rewrite out_add_section_separator. cbn [fst snd app].
      eexists. reflexivity.
    + rewrite (appender_appended _ w appender_skills).
      unfold create_skills_section. enter_section Hd Hl Ht.
      rewrite out_bind by appender_solve.
      rewrite out_add_section_separator. cbn [fst snd app].
      eexists. reflexivity.
    + rewrite (appender_appended _ w appender_certifications).
      unfold create_certifications_section. enter_section Hd Hl Ht.
      rewrite out_bind by appender_solve.
      rewrite out_add_section_separator. cbn [fst snd app].
      eexists. reflexivity.
Qed.

(** ** Exit status *)

Section ExitStatus.

Variable stringWidth : string -> string -> Q -> Q.
Variable getSampleStyleSheet : StyleSheet.
Variable path_exists : string -> bool.
Variable yaml_safe_load : string -> result value.
Variable doc_build : SimpleDocTemplate -> list block -> result unit.

Lemma generate_pdf_run (w : world) :
  generate_pdf doc_build w =
    let bs := snd (out render_sections (self w)) in
    let w' := {| self := self w; story := bs;
                 trace := trace w ++ [Build (document (self w)) bs] |} in
    match fst (out render_sections (self w)) with
    | Raise e => (Raise e, with_story w bs)
    | Ok _ =>
        match doc_build (document (self w)) bs with
        | Raise e => (Raise e, w')
        | Ok _ =>
            (Ok tt,
             {| self := self w; story := bs;
                trace := trace w' ++
                  [Print ("Resume generated successfully: " ++
                          output_file (self w))%string] |})
        end
    end.
Proof.
  unfold generate_pdf. unfold bind at 1. rewrite build_story_out.
  cbv zeta.
  destruct (fst (out render_sections (self w))) as [[]|e]; [|reflexivity].
  unfold bind. cbn [with_story self story trace]. fold (document (self w)).
  destruct (doc_build (document (self w)) _) as [[]|e]; reflexivity.
Qed.

Lemma prefix_app (s t : string) : prefix s (s ++ t)%string = true.
Proof.
  induction s as [|c s IH]; cbn.
  - destruct t; reflexivity.
  - destruct (Ascii.ascii_dec c c); [exact IH|contradiction].
Qed.

Lemma substring_of_prefix (s h : string) :
  prefix s h = true -> substring_of s h = true.
Proof. destruct h; cbn [substring_of]; intros ->; reflexivity. Qed.

Lemma substring_of_app (s a t : string) :
  substring_of s (a ++ s ++ t)%string = true.
Proof.
  induction a as [|c a IH]; cbn [String.append].
  - apply substring_of_prefix, prefix_app.
  - cbn [substring_of]. rewrite IH. apply orb_true_r.
Qed.

(** C6.  [main] returns 0 or 1; it returns 0 exactly when the input file
    exists, loading it succeeds, the six renderers run without error and
    [doc.build] succeeds, and 1 in every other case.  For any configured
    input file that does not exist, [parse_input_file] raises
    [FileNotFoundError] with a message that contains the file name and
    leaves the world as it was.  When [resume_data.yaml] does not exist,
    [main] returns 1, the line it prints for the error contains that
    name, no block was built and [doc.build] was never called. *)
Theorem exit_status :
  let generator := default_generator stringWidth getSampleStyleSheet in
  let run_main :=
    main stringWidth getSampleStyleSheet path_exists yaml_safe_load
         doc_build in
  let missing :=
    FileNotFoundError "Input file resume_data.yaml not found!" in
  (fst run_main = Ok 0%Z \/ fst run_main = Ok 1%Z) /\
  (fst run_main = Ok 0%Z <->
   succeeds stringWidth getSampleStyleSheet path_exists yaml_safe_load
            doc_build) /\
  (forall w : world,
      path_exists (input_file (self w)) = false ->
      exists msg : string,
        parse_input_file path_exists yaml_safe_load w =
          (Raise (FileNotFoundError msg), w) /\
        substring_of (input_file (self w)) msg = true) /\
  (path_exists "resume_data.yaml" = false ->
   fst run_main = Ok 1%Z /\
   trace (snd run_main) =
     [ Print "Parsing input data...";
       PrintError "Error: " missing;
       Print "Please ensure resume_data.yaml exists with your resume data" ] /\
   event_text (PrintError "Error: " missing) =
     Some "Error: Input file resume_data.yaml not found!" /\
   substring_of (input_file generator)
                "Error: Input file resume_data.yaml not found!" = true /\
   story (snd run_main) = [] /\
   existsb is_build (trace (snd run_main)) = false).
Proof.
  intros generator run_main missing.
  assert (Hparse : forall w : world,
             path_exists (input_file (self w)) = false ->
             exists msg : string,
               parse_input_file path_exists yaml_safe_load w =
                 (Raise (FileNotFoundError msg), w) /\
               substring_of (input_file (self w)) msg = true).
  { intros w Hw. unfold parse_input_file. rewrite Hw. cbn [negb].
    eexists. split; [reflexivity|]. apply substring_of_app. }
  subst run_main missing.
  unfold succeeds, main, try_except. cbv zeta. fold generator.
  unfold bind, parse_input_file, print, print_error, set_data, lift, ret.
  subst generator. unfold default_generator.
  cbn [self story trace input_file new_ResumeGenerator app].
  destruct (path_exists "resume_data.yaml") eqn:Ep; cbn [negb].
  2:{ cbn. split; [right; reflexivity|].
      split; [split; [discriminate|intros [H _]; discriminate]|].
      split; [exact Hparse|]. intros _.
      repeat (split; [reflexivity|]). reflexivity. }
  destruct (yaml_safe_load "resume_data.yaml") as [v|e] eqn:Ey.
  2:{ split; [right; destruct e; reflexivity|].
      split; [split; [destruct e; discriminate
                     |intros [_ (v & H & _)]; discriminate]|].
      split; [exact Hparse|]. discriminate. }
  unfold bind. cbn [self story trace app fst snd].
  rewrite generate_pdf_run. cbv zeta.
  cbn [self story trace app fst snd with_story].
  unfold loaded, document.
  cbn [self story trace app fst snd input_file output_file data styles
       new_ResumeGenerator].
  set (g := {| input_file := "resume_data.yaml";
               output_file := "Generated_Resume.pdf";
               data := v;
               styles := _setup_custom_styles stringWidth
                                              getSampleStyleSheet |}).
  destruct (fst (out render_sections g)) as [[]|e] eqn:Er.
  2:{ split; [right; destruct e; reflexivity|].
      split; [split; [destruct e; discriminate|]|].
      - intros [_ (v' & Hv & H & _)].
        injection Hv as <-. fold g in H. congruence.
      - split; [exact Hparse|]. discriminate. }
  match goal with
  | |- context [doc_build ?d ?bs] =>
      destruct (doc_build d bs) as [[]|e] eqn:Eb
  end.
  2:{ split; [right; destruct e; reflexivity|].
      split; [split; [destruct e; discriminate|]|].
      - intros [_ (v' & Hv & _ & H)].
        injection Hv as <-. fold g in H. congruence.
      - split; [exact Hparse|]. discriminate. }
  split; [left; reflexivity|].
  split; [split; [intros _|reflexivity]|].
  - split; [reflexivity|]. exists v. repeat split; assumption.
  - split; [exact Hparse|]. discriminate.
Qed.

End ExitStatus.


(** ** Which keys a renderer reads *)

Lemma reads_only_ret (keys : list string) {A : Type} (a : A) :
  reads_only keys (ret a).
Proof. intros g1 g2 _. reflexivity. Qed.

Lemma reads_only_lift (keys : list string) {A : Type} (r : result A) :
  reads_only keys (lift r).
Proof. intros g1 g2 _. reflexivity. Qed.

Lemma reads_only_story_append (keys : list string) (b : block) :
  reads_only keys (story_append b).
Proof. intros g1 g2 _. reflexivity. Qed.

Lemma reads_only_self_styles (keys : list string) (k : style_key) :
  reads_only keys (self_styles k).
Proof.
  intros g1 g2 [Hs _]. unfold out, self_styles. cbn. rewrite Hs. reflexivity.
Qed.

Lemma reads_only_data_in (keys : list string) (k : string) :
  In k keys -> reads_only keys (data_in k).
Proof.
  intros Hk g1 g2 [_ Hd]. unfold out, data_in, bind, self_data, lift. cbn.
  destruct (Hd k Hk) as [H _]. rewrite H. reflexivity.
Qed.

Lemma reads_only_data_at (keys : list string) (k : string) :
  In k keys -> reads_only keys (data_at k).
Proof.
  intros Hk g1 g2 [_ Hd]. unfold out, data_at, bind, self_data, lift. cbn.
  destruct (Hd k Hk) as [_ H]. rewrite H. reflexivity.
Qed.

Lemma reads_only_bind (keys : list string) {A B : Type} (m : M world A)
  (k : A -> M world B) :
  appender m -> (forall a, appender (k a)) ->
  reads_only keys m -> (forall a, reads_only keys (k a)) ->
  reads_only keys (bind m k).
Proof.
  intros Am Ak Rm Rk g1 g2 Hg.
  rewrite !out_bind by assumption.
  rewrite (Rm g1 g2 Hg).
  destruct (fst (out m g2)); [|reflexivity].
  rewrite (Rk a g1 g2 Hg). reflexivity.
Qed.

Lemma reads_only_for_each (keys : list string) {A : Type} (items : list A)
  (body : A -> M world unit) :
  (forall x, appender (body x)) -> (forall x, reads_only keys (body x)) ->
  reads_only keys (for_each items body).
Proof.
  intros Ab Rb. induction items as [|x rest IH]; cbn [for_each].
  - apply reads_only_ret.
  - apply reads_only_bind; auto.
    intros _. apply appender_for_each. exact Ab.
Qed.

Lemma reads_only_incl (keys keys' : list string) {A : Type}
  (m : M world A) :
  incl keys keys' -> reads_only keys m -> reads_only keys' m.
Proof.
  intros Hi Hm g1 g2 [Hs Hd]. apply Hm. split; [exact Hs|].
  intros k Hk. apply Hd, Hi, Hk.
Qed.

Ltac reads_only_step :=
  first
    [ apply reads_only_ret
    | apply reads_only_lift
    | apply reads_only_data_in; cbn; tauto
    | apply reads_only_data_at; cbn; tauto
    | apply reads_only_self_styles
    | apply reads_only_story_append
    | apply reads_only_for_each
    | apply reads_only_bind
    | match goal with
      | |- reads_only _ (if ?c then _ else _) => destruct c
      | |- reads_only _ (match ?l with [] => _ | _ :: _ => _ end) =>
          destruct l
      | |- appender _ => appender_solve
      end ].

Ltac reads_only_walk :=
  unfold when, py_and, py_or, negate, truthy, for_in, key_in, item,
    new_Paragraph;
  repeat (intros; reads_only_step).

Lemma reads_only_add_section_separator (keys : list string) :
  reads_only keys add_section_separator.
Proof. unfold add_section_separator. reads_only_walk. Qed.

Lemma reads_only_contact_field (keys : list string) personal k ci :
  reads_only keys (contact_field personal k ci).
Proof. unfold contact_field. reads_only_walk. Qed.

Lemma reads_only_experience_entry (keys : list string) exp :
  reads_only keys (experience_entry exp).
Proof. unfold experience_entry. reads_only_walk. Qed.

Lemma reads_only_education_entry (keys : list string) edu :
  reads_only keys (education_entry edu).
Proof. unfold education_entry. reads_only_walk. Qed.

Lemma reads_only_project_entry (keys : list string) project :
  reads_only keys (project_entry project).
Proof. unfold project_entry. reads_only_walk. Qed.

Ltac reads_only_solve :=
  repeat first
    [ apply reads_only_contact_field
    | apply reads_only_add_section_separator
    | apply reads_only_experience_entry
    | apply reads_only_education_entry
    | apply reads_only_project_entry
    | progress reads_only_walk ].

Lemma reads_only_personal :
  reads_only ["personal"] create_personal_section.
Proof. unfold create_personal_section. reads_only_solve. Qed.

Lemma reads_only_experience :
  reads_only ["experience"] create_experience_section.
Proof. unfold create_experience_section. reads_only_solve. Qed.

Lemma reads_only_education :
  reads_only ["education"] create_education_section.
Proof. unfold create_education_section. reads_only_solve. Qed.

Lemma reads_only_skills : reads_only ["skills"] create_skills_section.
Proof. unfold create_skills_section. reads_only_solve. Qed.

Lemma reads_only_certifications :
  reads_only ["certifications"] create_certifications_section.
Proof. unfold create_certifications_section. reads_only_solve. Qed.

Lemma reads_only_projects : reads_only ["projects"] create_projects_section.
Proof. unfold create_projects_section. reads_only_solve. Qed.

Lemma reads_only_render_sections : reads_only section_keys render_sections.
Proof.
  assert (Hin : forall k, In k section_keys -> incl [k] section_keys).
  { intros k Hk x [<-|[]]. exact Hk. }
  pose proof (reads_only_incl _ _ _ (Hin "personal" ltac:(cbn; tauto))
                reads_only_personal) as Rp.
  pose proof (reads_only_incl _ _ _ (Hin "experience" ltac:(cbn; tauto))
                reads_only_experience) as Rx.
  pose proof (reads_only_incl _ _ _ (Hin "education" ltac:(cbn; tauto))
                reads_only_education) as Re.
  pose proof (reads_only_incl _ _ _ (Hin "skills" ltac:(cbn; tauto))
                reads_only_skills) as Rs.
  pose proof (reads_only_incl _ _ _ (Hin "certifications" ltac:(cbn; tauto))
                reads_only_certifications) as Rc.
  pose proof (reads_only_incl _ _ _ (Hin "projects" ltac:(cbn; tauto))
                reads_only_projects) as Rj.
  unfold render_sections.
  repeat (apply reads_only_bind;
          [ auto using appender_personal, appender_experience,
              appender_education, appender_skills, appender_certifications
          | intros _;
            repeat (apply appender_bind; [|intros _]);
            auto using appender_experience, appender_education,
              appender_skills, appender_certifications, appender_projects
          | assumption
          | intros _ ]).
  assumption.
Qed.

Lemma same_items_on_lookup (keys : list string)
  (d1 d2 : list (string * value)) :
  (forall k, In k keys -> lookup k d1 = lookup k d2) ->
  same_items_on keys (VDict d1) (VDict d2).
Proof.
  intros H k Hk. cbn. unfold has_key. rewrite (H k Hk). split; reflexivity.
Qed.

(** Each renderer reads the record through its own key only: two records
    that agree on that key, held by generators with the same styles, make
    it return the same result and append the same blocks. *)
Theorem renderer_reads_its_key :
  Forall (fun km : string * M world unit => reads_only [fst km] (snd km))
         keyed_renderers.
Proof.
  unfold keyed_renderers.
  repeat (apply Forall_cons; [|]); try apply Forall_nil; cbn [fst snd];
    auto using reads_only_personal, reads_only_experience,
      reads_only_education, reads_only_skills, reads_only_certifications,
      reads_only_projects.
Qed.

(** Keys other than the six section keys are ignored: two mappings that
    hold the same item, or none, under each of the six keys give the same
    result and the same block sequence. *)
Theorem unknown_keys_ignored (w1 w2 : world)
  (d1 d2 : list (string * value)) :
  data (self w1) = VDict d1 -> data (self w2) = VDict d2 ->
  styles (self w1) = styles (self w2) ->
  (forall k, In k section_keys -> lookup k d1 = lookup k d2) ->
  fst (build_story w1) = fst (build_story w2) /\
  story (snd (build_story w1)) = story (snd (build_story w2)).
Proof.
  intros H1 H2 Hs Hk.
  rewrite !build_story_out. cbn [fst snd with_story story].
  assert (Hsim : sim_on section_keys (self w1) (self w2)).
  { split; [exact Hs|]. rewrite H1, H2.
    apply same_items_on_lookup. exact Hk. }
  rewrite (reads_only_render_sections _ _ Hsim). split; reflexivity.
Qed.

(** ** Independence from the blocks already there *)

(** A renderer does not read the block list it appends to, prints nothing
    and does not call [doc.build]: in two worlds with the same generator it
    returns the same result and appends the same blocks, and the trace of
    events is the one it started with. *)
Theorem renderers_ignore_story :
  Forall
    (fun m : M world unit =>
       forall w w' : world,
         self w = self w' ->
         fst (m w) = fst (m w') /\
         appended m w = appended m w' /\
         trace (snd (m w)) = trace w)
    section_renderers.
Proof.
  eapply Forall_impl; [|exact appender_section_renderers].
  intros m Hm w w' Hself. cbv beta.
  rewrite !(appender_appended m _ Hm), !(appender_result m _ Hm).
  rewrite (appender_world m w Hm), Hself.
  repeat split.
Qed.

(** ** The blocks of a whole section *)

Lemma for_each_map_blocks {A : Type} (inj : A -> value)
  (f : A -> ResumeGenerator -> list block) (body : value -> M world unit)
  (xs : list A) (w : world) :
  (forall x, In x xs -> forall w',
        body (inj x) w' =
        (Ok tt, with_story w' (story w' ++ f x (self w')))) ->
  for_each (map inj xs) body w =
    (Ok tt, with_story w (story w ++ flat_map (fun x => f x (self w)) xs)).
Proof.
  revert w. induction xs as [|x rest IH]; intros w Hb.
  - cbn. rewrite app_nil_r, with_story_same. reflexivity.
  - cbn [map for_each flat_map]. unfold bind.
    rewrite (Hb x (or_introl eq_refl)).
    rewrite IH by (intros y Hy; apply Hb; right; exact Hy).
    cbn [with_story self story trace]. rewrite <- app_assoc. reflexivity.
Qed.

Lemma out_for_in_map {A : Type} (inj : A -> value)
  (f : A -> ResumeGenerator -> list block) (body : value -> M world unit)
  (xs : list A) (g : ResumeGenerator) :
  (forall x, In x xs -> forall w',
        body (inj x) w' =
        (Ok tt, with_story w' (story w' ++ f x (self w')))) ->
  out (for_in (VList (map inj xs)) body) g =
    (Ok tt, flat_map (fun x => f x g) xs).
Proof.
  intros Hb. unfold out, for_in, bind, lift. cbn [py_iter].
  rewrite (for_each_map_blocks inj f body xs _ Hb). reflexivity.
Qed.

Lemma truthy_list_map {A : Type} (inj : A -> value) (xs : list A) :
  xs <> [] -> py_truthy (VList (map inj xs)) = true.
Proof. destruct xs; [contradiction|reflexivity]. Qed.

Lemma run_of_out {A : Type} (m : M world A) (w : world) (r : result A)
  (bs : list block) :
  appender m -> out m (self w) = (r, bs) ->
  m w = (r, with_story w (story w ++ bs)).
Proof. intros Hm Ho. rewrite (Hm w), Ho. reflexivity. Qed.

Lemma out_for_in_built (f : value -> ResumeGenerator -> block)
  (body : value -> M world unit) (items : list value)
  (g : ResumeGenerator) :
  (forall x w',
      body x w' =
      match block_error (f x (self w')) with
      | None => (Ok tt, with_story w' (story w' ++ [f x (self w')]))
      | Some e => (Raise e, w')
      end) ->
  out (for_in (VList items) body) g =
    (fst (built (map (fun x => f x g) items)),
     snd (built (map (fun x => f x g) items))).
Proof.
  intros Hb. unfold out, for_in, bind, lift. cbn [py_iter].
  rewrite (for_each_built f body items _ Hb). reflexivity.
Qed.

Lemma accepted_flat_map {A : Type} (f : A -> list block) (xs : list A)
  (x : A) :
  Forall accepted (flat_map f xs) -> In x xs -> Forall accepted (f x).
Proof.
  intros H Hx. rewrite Forall_forall in *. intros b Hb.
  apply H, in_flat_map. exists x. split; assumption.
Qed.

(** The whole experience section, for a non-empty list of entries that are
    mappings whose responsibilities, where present, can be iterated, when
    the library accepts every bullet: the header, the rule and its
    spacer, then for each entry in order its company/location line, its
    title/duration line, its bullets and the 0.05 inch spacer that closes
    the entry. *)
Theorem experience_section_blocks (w : world) (d : list (string * value))
  (es : list (list (string * value))) :
  data (self w) = VDict d ->
  lookup "experience" d = Some (VList (map VDict es)) ->
  es <> [] ->
  Forall (fun e => exists items, responsibilities e = Ok items) es ->
  Forall accepted (flat_map (experience_blocks (styles (self w))) es) ->
  create_experience_section w =
    (Ok tt,
     with_story w
       (story w ++
        section_header (styles (self w)) "PROFESSIONAL EXPERIENCE" ::
        separator_blocks ++
        flat_map (experience_blocks (styles (self w))) es)).
Proof.
  intros Hd Hl Hne Hr Ha. apply run_of_out; [exact appender_experience|].
  pose proof (truthy_list_map VDict es Hne) as Ht.
  unfold create_experience_section. enter_section Hd Hl Ht.
  rewrite out_bind by appender_solve.
  rewrite out_add_section_separator. cbn [fst snd app].
  rewrite out_bind by appender_solve.
  rewrite (out_data_at _ _ _ _ Hd Hl). cbn [fst snd app].
  set (sheet := styles (self w)) in *.
  assert (Hb : forall e w',
             In e es -> self w' = self w ->
             experience_entry (VDict e) w' =
             (Ok tt,
              with_story w' (story w' ++ experience_blocks sheet e))).
  { intros e w' He Hw. rewrite experience_entry_dict.
    rewrite Forall_forall in Hr. destruct (Hr e He) as [items Hi].
    pose proof (accepted_flat_map _ _ e Ha He) as Hae.
    unfold experience_blocks in *. rewrite Hi in *. rewrite Hw. fold sheet.
    cbv zeta.
    assert (Hbul : Forall accepted (map (bullet sheet) items)).
    { rewrite !Forall_app in Hae. tauto. }
    rewrite (built_accepted _ Hbul). reflexivity. }
  unfold out, for_in, bind, lift. cbn [py_iter].
  assert (Hrun : forall xs w',
             incl xs es -> self w' = self w ->
             for_each (map VDict xs) experience_entry w' =
             (Ok tt,
              with_story w'
                (story w' ++ flat_map (experience_blocks sheet) xs))).
  { induction xs as [|x xs IH]; intros w' Hi Hw.
    - cbn. rewrite app_nil_r, with_story_same. reflexivity.
    - cbn [map for_each flat_map]. unfold bind.
      rewrite (Hb x w' (Hi x (or_introl eq_refl)) Hw).
      rewrite IH; [|intros y Hy; apply Hi; right; exact Hy|exact Hw].
      cbn [with_story self story trace]. rewrite <- app_assoc.
      reflexivity. }
  rewrite (Hrun es {| self := self w; story := []; trace := [] |}
             (incl_refl es) eq_refl).
  reflexivity.
Qed.

(** The whole education section, for a non-empty list of entries that are
    mappings: the header, the rule and its spacer, then for each entry in
    order its institution/duration line and its degree/location line, each
    with its spacer.  An entry with neither pair complete adds no block. *)
Theorem education_section_blocks (w : world) (d : list (string * value))
  (es : list (list (string * value))) :
  data (self w) = VDict d ->
  lookup "education" d = Some (VList (map VDict es)) ->
  es <> [] ->
  create_education_section w =
    (Ok tt,
     with_story w
       (story w ++
        section_header (styles (self w)) "EDUCATION" ::
        separator_blocks ++ flat_map education_blocks es)).
Proof.
  intros Hd Hl Hne. apply run_of_out; [exact appender_education|].
  pose proof (truthy_list_map VDict es Hne) as Ht.
  unfold create_education_section. enter_section Hd Hl Ht.
  rewrite out_bind by appender_solve.
  rewrite out_add_section_separator. cbn [fst snd app].
  rewrite out_bind by appender_solve.
  rewrite (out_data_at _ _ _ _ Hd Hl). cbn [fst snd app].
  rewrite (out_for_in_map VDict (fun e _ => education_blocks e)).
  - reflexivity.
  - intros e He w'. rewrite education_entry_dict. reflexivity.
Qed.

(** What [project_entry] does for a project that is a mapping: its lines
    up to the first one that the library refuses, and the closing spacer
    when none is refused. *)
Lemma project_entry_dict (p : list (string * value)) (w : world) :
  project_entry (VDict p) w =
    (fst (built (project_lines (styles (self w)) p)),
     with_story w
       (story w ++ snd (built (project_lines (styles (self w)) p)) ++
        match fst (built (project_lines (styles (self w)) p)) with
        | Ok _ => [Spacer 1 (0.1 * inch)]
        | Raise _ => []
        end)).
Proof.
  destruct w as [g blocks events]. unfold project_lines, field_line.
  destruct (lookup "name" p) as [n|] eqn:En;
  destruct (lookup "description" p) as [c|] eqn:Ec;
  destruct (lookup "technologies" p) as [t|] eqn:Et;
  destruct (lookup "link" p) as [l|] eqn:El;
  run; repeat (unfold has_key; rewrite ?En, ?Ec, ?Et, ?El; cbn);
  repeat (match goal with
          | |- context [paragraph_error ?t ?st] =>
              destruct (paragraph_error t st)
          end; cbn);
  same_story.
Qed.

(** The whole projects section, for a non-empty list of projects that are
    mappings, when the library accepts every line: the header, then for
    each project in order the lines of its name, description, technologies
    and link that are present, and the 0.1 inch spacer that closes the
    project.  No rule follows the header, and a project without any of the
    four fields still adds its spacer. *)
Theorem projects_section_blocks (w : world) (d : list (string * value))
  (ps : list (list (string * value))) :
  data (self w) = VDict d ->
  lookup "projects" d = Some (VList (map VDict ps)) ->
  ps <> [] ->
  Forall accepted (flat_map (project_blocks (styles (self w))) ps) ->
  create_projects_section w =
    (Ok tt,
     with_story w
       (story w ++
        section_header (styles (self w)) "PROJECTS" ::
        flat_map (project_blocks (styles (self w))) ps)).
Proof.
  intros Hd Hl Hne Ha. apply run_of_out; [exact appender_projects|].
  pose proof (truthy_list_map VDict ps Hne) as Ht.
  unfold create_projects_section. enter_section Hd Hl Ht.
  rewrite out_bind by appender_solve.
  rewrite (out_data_at _ _ _ _ Hd Hl). cbn [fst snd app].
  set (sheet := styles (self w)) in *.
  unfold out, for_in, bind, lift. cbn [py_iter].
  assert (Hrun : forall xs w',
             incl xs ps -> self w' = self w ->
             for_each (map VDict xs) project_entry w' =
             (Ok tt,
              with_story w'
                (story w' ++ flat_map (project_blocks sheet) xs))).
  { induction xs as [|x xs IH]; intros w' Hi Hw.
    - cbn. rewrite app_nil_r, with_story_same. reflexivity.
    - cbn [map for_each flat_map]. unfold bind.
      rewrite project_entry_dict, Hw. fold sheet.
      pose proof (accepted_flat_map _ _ x Ha (Hi x (or_introl eq_refl)))
        as Hx.
      unfold project_blocks in Hx. apply Forall_app in Hx.
      rewrite (built_accepted _ (proj1 Hx)). cbn [fst snd].
      rewrite IH; [|intros y Hy; apply Hi; right; exact Hy|exact Hw].
      cbn [with_story self story trace]. unfold project_blocks.
      rewrite <- !app_assoc. reflexivity. }
  rewrite (Hrun ps {| self := self w; story := []; trace := [] |}
             (incl_refl ps) eq_refl).
  reflexivity.
Qed.

(** The whole certifications section, for a non-empty list, when the
    library accepts every line: the header, the rule and its spacer, then
    one paragraph per certification, in order, the bullet glyph and a
    space followed by the certification, in the [Description] style.  No
    spacer closes the section. *)
Theorem certifications_section_blocks (w : world)
  (d : list (string * value)) (certs : list value) :
  data (self w) = VDict d ->
  lookup "certifications" d = Some (VList certs) ->
  certs <> [] ->
  Forall accepted (map (certification_line (styles (self w))) certs) ->
  create_certifications_section w =
    (Ok tt,
     with_story w
       (story w ++
        section_header (styles (self w)) "CERTIFICATIONS" ::
        separator_blocks ++
        map (certification_line (styles (self w))) certs)).
Proof.
  intros Hd Hl Hne Ha. apply run_of_out; [exact appender_certifications|].
  assert (Ht : py_truthy (VList certs) = true)
    by (destruct certs; [contradiction|reflexivity]).
  unfold create_certifications_section. enter_section Hd Hl Ht.
  rewrite out_bind by appender_solve.
  rewrite out_add_section_separator. cbn [fst snd app].
  rewrite out_bind by appender_solve.
  rewrite (out_data_at _ _ _ _ Hd Hl). cbn [fst snd app].
  rewrite (out_for_in_built
             (fun c g => certification_line (styles g) c))
    by (intros; unfold bind, self_styles, new_Paragraph, lift, story_append;
        cbn; destruct (paragraph_error _ _); reflexivity).
  change (fun x : value => certification_line (styles (self w)) x)
    with (certification_line (styles (self w))).
  rewrite (built_accepted _ Ha). reflexivity.
Qed.

(** ** Values of the wrong type *)

Lemma strings_of_not_a_string (l : list value) :
  Exists not_a_string l -> strings_of l = Raise TypeError.
Proof.
  induction l as [|v l IH]; intros H; [inversion H|].
  destruct v; try reflexivity.
  cbn. rewrite IH; [reflexivity|].
  inversion H as [? ? Hv|? ? Hl]; [|exact Hl].
  exfalso. exact (Hv s eq_refl).
Qed.

(** When one of the contact fields that are present is not a string, and
    the library accepts the name if there is one, the personal renderer
    raises [TypeError]: the name heading, if any, has been appended, and
    neither a contact line nor the closing spacer follows. *)
Theorem personal_contact_not_a_string (w : world)
  (d p : list (string * value)) :
  data (self w) = VDict d ->
  lookup "personal" d = Some (VDict p) ->
  Exists not_a_string (present_contacts p) ->
  Forall accepted (name_blocks (styles (self w)) p) ->
  create_personal_section w =
    (Raise TypeError,
     with_story w (story w ++ name_blocks (styles (self w)) p)).
Proof.
  intros Hd Hp Hx Ha. rewrite (personal_dict w d p Hd Hp).
  rewrite (built_accepted _ Ha). cbn [fst].
  unfold contact_blocks.
  destruct (present_contacts p) as [|v ci] eqn:E; [inversion Hx|].
  unfold str_join. rewrite (strings_of_not_a_string _ Hx).
  reflexivity.
Qed.

(** When [personal] holds null, a boolean or a number, the personal
    renderer raises [TypeError] at its first membership test and appends
    nothing. *)
Theorem personal_not_a_mapping (w : world) (d : list (string * value))
  (v : value) :
  data (self w) = VDict d ->
  lookup "personal" d = Some v ->
  is_scalar v = true ->
  create_personal_section w = (Raise TypeError, w).
Proof.
  intros Hd Hl Hv. open_world w Hd.
  destruct v; try discriminate;
    run; repeat (unfold has_key; rewrite ?Hl; cbn); reflexivity.
Qed.

(** When the key of one of the five other sections holds [true] or a
    number other than zero, its renderer appends the header (and, except
    for projects, the rule and its spacer) and then raises [TypeError],
    since the value cannot be iterated. *)
Theorem section_value_not_iterable (w : world) (d : list (string * value)) :
  data (self w) = VDict d ->
  Forall
    (fun s : string * string * list block * M world unit =>
       let '(k, title, after_header, m) := s in
       forall v : value,
         lookup k d = Some v -> is_scalar v = true -> py_truthy v = true ->
         m w =
           (Raise TypeError,
            with_story w
              (story w ++
               section_header (styles (self w)) title :: after_header)))
    headed_sections.
Proof.
  intros Hd. open_world w Hd. unfold headed_sections.
  repeat (apply Forall_cons; [|]); try apply Forall_nil;
    intros v Hl Hv Ht;
    destruct v as [|[|]|[|z|z]| | |]; try discriminate;
    run; repeat (unfold has_key; rewrite ?Hl; cbn); same_story.
Qed.

(** When the skills list holds an element that is not a string, the skills
    renderer raises [TypeError] after the header, the rule and its spacer:
    no skills line and no closing spacer are appended. *)
Theorem skills_element_not_a_string (w : world) (d : list (string * value))
  (l : list value) :
  data (self w) = VDict d ->
  lookup "skills" d = Some (VList l) ->
  Exists not_a_string l ->
  create_skills_section w =
    (Raise TypeError,
     with_story w
       (story w ++
        section_header (styles (self w)) "TECHNICAL SKILLS" ::
        separator_blocks)).
Proof.
  intros Hd Hl Hx. open_world w Hd.
  pose proof (strings_of_not_a_string l Hx) as Hs.
  destruct l as [|v l]; [inversion Hx|].
  run. repeat (unfold has_key; rewrite ?Hl; cbn).
  unfold str_join. rewrite Hs. same_story.
Qed.


(** ** Runs of the entry point *)

Section Runs.

Variable stringWidth : string -> string -> Q -> Q.
Variable getSampleStyleSheet : StyleSheet.
Variable path_exists : string -> bool.
Variable yaml_safe_load : string -> result value.
Variable doc_build : SimpleDocTemplate -> list block -> result unit.

(** [main] once the input file exists and holds the record [v]. *)
Lemma main_loaded (v : value) :
  path_exists "resume_data.yaml" = true ->
  yaml_safe_load "resume_data.yaml" = Ok v ->
  main stringWidth getSampleStyleSheet path_exists yaml_safe_load doc_build =
    let g := loaded (default_generator stringWidth getSampleStyleSheet) v in
    let bs := snd (out render_sections g) in
    let started := [Print "Parsing input data..."; Print "Generating PDF..."] in
    match fst (out render_sections g) with
    | Raise e =>
        (Ok 1%Z, {| self := g; story := bs; trace := started ++ report e |})
    | Ok _ =>
        match doc_build (document g) bs with
        | Raise e =>
            (Ok 1%Z,
             {| self := g; story := bs;
                trace := started ++ Build (document g) bs :: report e |})
        | Ok _ =>
            (Ok 0%Z,
             {| self := g; story := bs;
                trace :=
                  started ++
                  [ Build (document g) bs;
                    Print "Resume generated successfully: Generated_Resume.pdf";
                    Print "Resume generation completed successfully!" ] |})
        end
    end.
Proof.
  intros Ep Ey.
  unfold main, try_except.
  unfold bind, parse_input_file, print, print_error, set_data, lift, ret.
  cbn [self story trace input_file new_ResumeGenerator app].
  rewrite Ep, Ey. cbn [negb].
  unfold bind. cbn [self story trace app fst snd].
  rewrite generate_pdf_run. cbv zeta.
  unfold loaded, document, default_generator.
  cbn [self story trace app fst snd with_story input_file output_file data
       styles new_ResumeGenerator].
  match goal with
  | |- context [fst (out render_sections ?g)] =>
      destruct (fst (out render_sections g)) as [[]|e]
  end.
  2:{ destruct e; reflexivity. }
  match goal with
  | |- context [doc_build ?d ?bs] => destruct (doc_build d bs) as [[]|e]
  end.
  - reflexivity.
  - destruct e; reflexivity.
Qed.

End Runs.

(** When the input file holds null (an empty file), a boolean or a number,
    the first renderer raises [TypeError]: [main] returns 1, reports the
    error through the general handler, and [doc.build] is not called. *)
Theorem main_record_not_a_mapping
  (stringWidth : string -> string -> Q -> Q) (getSampleStyleSheet : StyleSheet)
  (path_exists : string -> bool) (yaml_safe_load : string -> result value)
  (doc_build : SimpleDocTemplate -> list block -> result unit) (v : value) :
  path_exists "resume_data.yaml" = true ->
  yaml_safe_load "resume_data.yaml" = Ok v ->
  is_scalar v = true ->
  main stringWidth getSampleStyleSheet path_exists yaml_safe_load doc_build =
    (Ok 1%Z,
     {| self := loaded (default_generator stringWidth getSampleStyleSheet) v;
        story := [];
        trace := [ Print "Parsing input data...";
                   Print "Generating PDF...";
                   PrintError "Error generating resume: " TypeError ] |}).
Proof.
  intros Ep Ey Hv. rewrite (main_loaded _ _ _ _ _ v Ep Ey).
  destruct v; try discriminate; reflexivity.
Qed.

(** A [FileNotFoundError] raised by [doc.build], when the input was loaded
    and rendered, is caught by the handler for a missing input: [main]
    returns 1 and prints the error followed by the advice to provide
    [resume_data.yaml]. *)
Theorem main_build_file_not_found
  (stringWidth : string -> string -> Q -> Q) (getSampleStyleSheet : StyleSheet)
  (path_exists : string -> bool) (yaml_safe_load : string -> result value)
  (doc_build : SimpleDocTemplate -> list block -> result unit)
  (v : value) (msg : string) :
  let g := loaded (default_generator stringWidth getSampleStyleSheet) v in
  let bs := snd (out render_sections g) in
  path_exists "resume_data.yaml" = true ->
  yaml_safe_load "resume_data.yaml" = Ok v ->
  fst (out render_sections g) = Ok tt ->
  doc_build (document g) bs = Raise (FileNotFoundError msg) ->
  main stringWidth getSampleStyleSheet path_exists yaml_safe_load doc_build =
    (Ok 1%Z,
     {| self := g; story := bs;
        trace :=
          [ Print "Parsing input data...";
            Print "Generating PDF...";
            Build (document g) bs;
            PrintError "Error: " (FileNotFoundError msg);
            Print "Please ensure resume_data.yaml exists with your resume data"
          ] |}).
Proof.
  intros g bs Ep Ey Er Eb. rewrite (main_loaded _ _ _ _ _ v Ep Ey).
  cbv zeta. fold g. rewrite Er. fold bs. rewrite Eb. reflexivity.
Qed.

(** A successful run: [main] returns 0, [doc.build] is called once, with
    the blocks of the six renderers for the loaded record, between the
    progress lines, and the line that reports success names the output
    file. *)
Theorem main_success_trace
  (stringWidth : string -> string -> Q -> Q) (getSampleStyleSheet : StyleSheet)
  (path_exists : string -> bool) (yaml_safe_load : string -> result value)
  (doc_build : SimpleDocTemplate -> list block -> result unit) (v : value) :
  let g := loaded (default_generator stringWidth getSampleStyleSheet) v in
  let bs := snd (out render_sections g) in
  path_exists "resume_data.yaml" = true ->
  yaml_safe_load "resume_data.yaml" = Ok v ->
  fst (out render_sections g) = Ok tt ->
  doc_build (document g) bs = Ok tt ->
  main stringWidth getSampleStyleSheet path_exists yaml_safe_load doc_build =
    (Ok 0%Z,
     {| self := g; story := bs;
        trace :=
          [ Print "Parsing input data...";
            Print "Generating PDF...";
            Build (document g) bs;
            Print "Resume generated successfully: Generated_Resume.pdf";
            Print "Resume generation completed successfully!" ] |}) /\
  filename (document g) = "Generated_Resume.pdf".
Proof.
  intros g bs Ep Ey Er Eb. rewrite (main_loaded _ _ _ _ _ v Ep Ey).
  cbv zeta. fold g. rewrite Er. fold bs. rewrite Eb. split; reflexivity.
Qed.

(** When the input file exists and loading it raises, [main] returns 1 and
    reports the error; the renderers and [doc.build] are not run, and the
    generator keeps the empty record it was created with. *)
Theorem main_load_error
  (stringWidth : string -> string -> Q -> Q) (getSampleStyleSheet : StyleSheet)
  (path_exists : string -> bool) (yaml_safe_load : string -> result value)
  (doc_build : SimpleDocTemplate -> list block -> result unit) (e : exn) :
  path_exists "resume_data.yaml" = true ->
  yaml_safe_load "resume_data.yaml" = Raise e ->
  main stringWidth getSampleStyleSheet path_exists yaml_safe_load doc_build =
    (Ok 1%Z,
     {| self := default_generator stringWidth getSampleStyleSheet;
        story := [];
        trace := Print "Parsing input data..." :: report e |}) /\
  data (default_generator stringWidth getSampleStyleSheet) = VDict [].
Proof.
  intros Ep Ey. split; [|reflexivity].
  unfold main, try_except.
  unfold bind, parse_input_file, print, print_error, set_data, lift, ret.
  cbn [self story trace input_file new_ResumeGenerator app].
  rewrite Ep, Ey. cbn [negb]. unfold bind.
  destruct e; reflexivity.
Qed.

(** ** Generation *)

(** [generate_pdf] calls [doc.build] exactly when the six renderers run
    without error, once, with the document for the output file and the
    blocks they produced; the line that reports success is printed only
    when [doc.build] returns.  The generator is left as it was. *)
Theorem generate_pdf_trace
  (doc_build : SimpleDocTemplate -> list block -> result unit) (w : world) :
  let bs := snd (out render_sections (self w)) in
  let doc := document (self w) in
  self (snd (generate_pdf doc_build w)) = self w /\
  story (snd (generate_pdf doc_build w)) = bs /\
  trace (snd (generate_pdf doc_build w)) =
    trace w ++
    match fst (out render_sections (self w)) with
    | Raise _ => []
    | Ok _ =>
        Build doc bs ::
        match doc_build doc bs with
        | Ok _ =>
            [Print ("Resume generated successfully: " ++
                    output_file (self w))%string]
        | Raise _ => []
        end
    end.
Proof.
  cbv zeta. rewrite generate_pdf_run. cbv zeta.
  destruct (fst (out render_sections (self w))) as [[]|e].
  - destruct (doc_build _ _) as [[]|e]; cbn [snd self story trace];
      rewrite <- ?app_assoc; repeat split.
  - cbn [snd with_story self story trace]. rewrite app_nil_r. repeat split.
Qed.

(** [generate_pdf] starts from an empty block list whatever the world
    holds: run a second time, it returns the same result and hands
    [doc.build] the same blocks as the first time. *)
Theorem generate_pdf_again
  (doc_build : SimpleDocTemplate -> list block -> result unit) (w : world) :
  let w1 := snd (generate_pdf doc_build w) in
  fst (generate_pdf doc_build w1) = fst (generate_pdf doc_build w) /\
  story (snd (generate_pdf doc_build w1)) = story w1.
Proof.
  cbv zeta.
  assert (Hself : self (snd (generate_pdf doc_build w)) = self w).
  { rewrite generate_pdf_run. cbv zeta.
    destruct (fst (out render_sections (self w))) as [[]|e];
      [destruct (doc_build _ _) as [[]|e]|]; reflexivity. }
  assert (Hstory : forall w0,
             story (snd (generate_pdf doc_build w0)) =
             snd (out render_sections (self w0))).
  { intros w0. rewrite generate_pdf_run. cbv zeta.
    destruct (fst (out render_sections (self w0))) as [[]|e];
      [destruct (doc_build _ _) as [[]|e]|]; reflexivity. }
  assert (Hres : forall w0,
             fst (generate_pdf doc_build w0) =
             match fst (out render_sections (self w0)) with
             | Raise e => Raise e
             | Ok _ =>
                 match doc_build (document (self w0))
                                 (snd (out render_sections (self w0))) with
                 | Raise e => Raise e
                 | Ok _ => Ok tt
                 end
             end).
  { intros w0. rewrite generate_pdf_run. cbv zeta.
    destruct (fst (out render_sections (self w0))) as [[]|e];
      [destruct (doc_build _ _) as [[]|e]|]; reflexivity. }
  split.
  - rewrite !Hres, Hself. reflexivity.
  - rewrite !Hstory, Hself. reflexivity.
Qed.

(** ** Records without sections *)

(** A record in which none of the six section keys is found, be it a
    mapping with other keys, a list or a string, gives an empty block
    sequence without error. *)
Theorem no_section_key_empty_story (w : world) :
  Forall (fun k => py_in k (data (self w)) = Ok false) section_keys ->
  build_story w = (Ok tt, with_story w []).
Proof.
  intros H. destruct w as [[i o dt sheet] blocks events].
  cbn [self data] in H. unfold section_keys in H.
  repeat match goal with
         | H : Forall _ (_ :: _) |- _ =>
             let H1 := fresh "K" in
             let H2 := fresh "R" in
             pose proof (Forall_inv H) as H1;
             pose proof (Forall_inv_tail H) as H2; clear H
         end.
  unfold build_story, render_sections. run.
  repeat (rewrite ?K, ?K0, ?K1, ?K2, ?K3, ?K4; cbn).
  reflexivity.
Qed.

(** ** Styles *)

(** Setting up the custom styles leaves the three sample styles it
    inherits from as they were, and the text measure is used for the
    [BulletPoint] style only. *)
Theorem custom_styles_frame
  (stringWidth stringWidth' : string -> string -> Q -> Q)
  (sample : StyleSheet) (k : style_key) :
  (In k [Normal; Heading1; Heading2] ->
   _setup_custom_styles stringWidth sample k = sample k) /\
  (k <> BulletPoint ->
   _setup_custom_styles stringWidth sample k =
   _setup_custom_styles stringWidth' sample k).
Proof.
  split.
  - intros [<-|[<-|[<-|[]]]]; reflexivity.
  - intros Hk. destruct k; try reflexivity. contradiction.
Qed.

(** ** Values that are iterated *)

(** The skills line joins whatever iterating the value yields, when all of
    it is strings and the library accepts the joined text: the elements of
    a list, and also the characters of a string or the keys of a
    mapping. *)
Theorem skills_joins_the_items (w : world) (d : list (string * value))
  (v : value) (items : list value) (texts : list string) :
  data (self w) = VDict d ->
  lookup "skills" d = Some v ->
  py_truthy v = true ->
  py_iter v = Ok items ->
  strings_of items = Ok texts ->
  accepted (Paragraph (Obj (VStr (String.concat ", " texts)))
                      (styles (self w) Description)) ->
  create_skills_section w =
    (Ok tt,
     with_story w
       (story w ++
        section_header (styles (self w)) "TECHNICAL SKILLS" ::
        separator_blocks ++
        [ Paragraph (Obj (VStr (String.concat ", " texts)))
                    (styles (self w) Description);
          Spacer 1 (0.1 * inch) ])).
Proof.
  intros Hd Hl Ht Hi Hs Ha. apply run_of_out; [exact appender_skills|].
  unfold accepted, block_error in Ha.
  unfold create_skills_section. enter_section Hd Hl Ht.
  rewrite out_bind by appender_solve.
  rewrite out_add_section_separator. cbn [fst snd app].
  rewrite out_bind by appender_solve.
  rewrite (out_data_at _ _ _ _ Hd Hl). cbn [fst snd app].
  unfold out, bind, lift, self_styles, new_Paragraph, story_append.
  rewrite Hi, (str_join_strings _ _ _ Hs). cbn [self styles].
  rewrite Ha. reflexivity.
Qed.

(** When the responsibilities of an entry hold null, a boolean or a
    number, the entry raises [TypeError] after its two-column lines: no
    bullet and no closing spacer are appended. *)
Theorem responsibilities_not_iterable (w : world)
  (e : list (string * value)) (v : value) :
  lookup "responsibilities" e = Some v ->
  is_scalar v = true ->
  experience_entry (VDict e) w =
    (Raise TypeError,
     with_story w
       (story w ++
        pair_blocks (lookup "company" e) (lookup "location" e)
                    bold_12 plain_11 (0.02 * inch) ++
        pair_blocks (lookup "title" e) (lookup "duration" e)
                    (oblique_11 black) (oblique_11 grey) (0.04 * inch))).
Proof.
  intros Hl Hv. rewrite experience_entry_dict.
  unfold responsibilities. rewrite Hl.
  destruct v; try discriminate; reflexivity.
Qed.

(** ** Texts that the library refuses *)

Lemma built_refused (bs rest : list block) (b : block) (x : exn) :
  Forall accepted bs -> block_error b = Some x ->
  built (bs ++ b :: rest) = (Raise x, bs).
Proof.
  intros Ha Hx. induction Ha as [|c cs Hc _ IH]; cbn [app built].
  - rewrite Hx. reflexivity.
  - unfold accepted in Hc. rewrite Hc, IH. reflexivity.
Qed.

(** When the library refuses the name of the personal section (it is not
    a string, or its markup is malformed), the renderer raises the
    library's exception and appends nothing: no heading, no contact line
    and no spacer. *)
Theorem personal_name_refused (w : world) (d p : list (string * value))
  (n : value) (x : exn) :
  data (self w) = VDict d ->
  lookup "personal" d = Some (VDict p) ->
  lookup "name" p = Some n ->
  paragraph_error (Obj n) (styles (self w) Name) = Some x ->
  create_personal_section w = (Raise x, w).
Proof.
  intros Hd Hp Hn Hx. rewrite (personal_dict w d p Hd Hp).
  unfold name_blocks. rewrite Hn. cbn [built block_error].
  rewrite Hx. reflexivity.
Qed.

(** When the skills are strings and the library refuses their joined
    text, the renderer raises the library's exception after the header,
    the rule and its spacer: the skills line and the closing spacer are
    not appended. *)
Theorem skills_text_refused (w : world) (d : list (string * value))
  (v : value) (items : list value) (texts : list string) (x : exn) :
  data (self w) = VDict d ->
  lookup "skills" d = Some v ->
  py_truthy v = true ->
  py_iter v = Ok items ->
  strings_of items = Ok texts ->
  paragraph_error (Obj (VStr (String.concat ", " texts)))
                  (styles (self w) Description) = Some x ->
  create_skills_section w =
    (Raise x,
     with_story w
       (story w ++
        section_header (styles (self w)) "TECHNICAL SKILLS" ::
        separator_blocks)).
Proof.
  intros Hd Hl Ht Hi Hs Hx. apply run_of_out; [exact appender_skills|].
  unfold create_skills_section. enter_section Hd Hl Ht.
  rewrite out_bind by appender_solve.
  rewrite out_add_section_separator. cbn [fst snd app].
  rewrite out_bind by appender_solve.
  rewrite (out_data_at _ _ _ _ Hd Hl). cbn [fst snd app].
  unfold out, bind, lift, self_styles, new_Paragraph, story_append.
  rewrite Hi, (str_join_strings _ _ _ Hs). cbn [self styles].
  rewrite Hx. reflexivity.
Qed.

(** When the library refuses the line of a certification and accepts the
    lines before it, the renderer raises the library's exception after
    the header, the rule, its spacer and the lines before: the refused
    line and the later ones are not appended. *)
Theorem certification_refused (w : world) (d : list (string * value))
  (before later : list value) (c : value) (x : exn) :
  data (self w) = VDict d ->
  lookup "certifications" d = Some (VList (before ++ c :: later)) ->
  Forall accepted (map (certification_line (styles (self w))) before) ->
  paragraph_error (FStr [Lit "• "; Fmt c])
                  (styles (self w) Description) = Some x ->
  create_certifications_section w =
    (Raise x,
     with_story w
       (story w ++
        section_header (styles (self w)) "CERTIFICATIONS" ::
        separator_blocks ++
        map (certification_line (styles (self w))) before)).
Proof.
  intros Hd Hl Ha Hx. apply run_of_out; [exact appender_certifications|].
  assert (Ht : py_truthy (VList (before ++ c :: later)) = true)
    by (destruct before; reflexivity).
  unfold create_certifications_section. enter_section Hd Hl Ht.
  rewrite out_bind by appender_solve.
  rewrite out_add_section_separator. cbn [fst snd app].
  rewrite out_bind by appender_solve.
  rewrite (out_data_at _ _ _ _ Hd Hl). cbn [fst snd app].
  rewrite (out_for_in_built
             (fun c g => certification_line (styles g) c))
    by (intros; unfold bind, self_styles, new_Paragraph, lift, story_append;
        cbn;
        match goal with
        | |- context [paragraph_error ?a ?b] =>
            destruct (paragraph_error a b)
        end; reflexivity).
  change (fun x : value => certification_line (styles (self w)) x)
    with (certification_line (styles (self w))).
  rewrite map_app. cbn [map].
  rewrite (built_refused _ _ (certification_line (styles (self w)) c)
             x Ha Hx).
  reflexivity.
Qed.

(** When the library refuses the bullet of a responsibility and accepts
    the bullets before it, the entry raises the library's exception after
    its two-column lines and the bullets before: the refused bullet, the
    later ones and the closing spacer are not appended. *)
Theorem bullet_refused (w : world) (e : list (string * value))
  (before later : list value) (r : value) (x : exn) :
  responsibilities e = Ok (before ++ r :: later) ->
  Forall accepted (map (bullet (styles (self w))) before) ->
  paragraph_error (FStr [Lit "- "; Fmt r])
                  (styles (self w) BulletPoint) = Some x ->
  experience_entry (VDict e) w =
    (Raise x,
     with_story w
       (story w ++
        pair_blocks (lookup "company" e) (lookup "location" e)
                    bold_12 plain_11 (0.02 * inch) ++
        pair_blocks (lookup "title" e) (lookup "duration" e)
                    (oblique_11 black) (oblique_11 grey) (0.04 * inch) ++
        map (bullet (styles (self w))) before)).
Proof.
  intros Hr Ha Hx. rewrite experience_entry_dict, Hr. cbv zeta.
  rewrite map_app. cbn [map].
  rewrite (built_refused _ _ (bullet (styles (self w)) r) x Ha Hx).
  cbn [fst snd].
  rewrite app_nil_r. reflexivity.
Qed.

(** When the library refuses the description of a project (it is not a
    string, or its markup is malformed) and accepts its name line, the
    project raises the library's exception after the name line: the
    description, the technologies, the link and the closing spacer are
    not appended. *)
Theorem project_description_refused (w : world)
  (p : list (string * value)) (v : value) (x : exn) :
  let name_line :=
    field_line p "name"
      (fun n => Paragraph (FStr [Lit "<b>"; Fmt n; Lit "</b>"])
                          (styles (self w) JobTitle)) in
  lookup "description" p = Some v ->
  Forall accepted name_line ->
  paragraph_error (Obj v) (styles (self w) Description) = Some x ->
  project_entry (VDict p) w =
    (Raise x, with_story w (story w ++ name_line)).
Proof.
  intros name_line Hv Ha Hx. rewrite project_entry_dict.
  unfold project_lines. fold name_line.
  assert (Hd : field_line p "description"
                 (fun v => Paragraph (Obj v) (styles (self w) Description)) =
               [Paragraph (Obj v) (styles (self w) Description)])
    by (unfold field_line; rewrite Hv; reflexivity).
  rewrite Hd. cbn [app].
  rewrite (built_refused _ _ (Paragraph (Obj v) (styles (self w) Description))
             x Ha Hx). cbn [fst snd].
  rewrite ?app_nil_r. reflexivity.
Qed.

(** When the input file loads and a renderer raises an exception that is
    not [FileNotFoundError], [main] reports it as a generation error and
    returns 1; the blocks appended before the exception are all there is,
    and [doc.build] is not called. *)
Theorem main_render_error
  (stringWidth : string -> string -> Q -> Q) (getSampleStyleSheet : StyleSheet)
  (path_exists : string -> bool) (yaml_safe_load : string -> result value)
  (doc_build : SimpleDocTemplate -> list block -> result unit)
  (v : value) (x : exn) :
  let g := loaded (default_generator stringWidth getSampleStyleSheet) v in
  path_exists "resume_data.yaml" = true ->
  yaml_safe_load "resume_data.yaml" = Ok v ->
  fst (out render_sections g) = Raise x ->
  (forall msg, x <> FileNotFoundError msg) ->
  main stringWidth getSampleStyleSheet path_exists yaml_safe_load doc_build =
    (Ok 1%Z,
     {| self := g; story := snd (out render_sections g);
        trace :=
          [ Print "Parsing input data...";
            Print "Generating PDF...";
            PrintError "Error generating resume: " x ] |}).
Proof.
  intros g Ep Ey Er Hx. rewrite (main_loaded _ _ _ _ _ v Ep Ey).
  cbv zeta. fold g. rewrite Er.
  destruct x; try reflexivity. exfalso. exact (Hx _ eq_refl).
Qed.

(** When the canvas cannot measure the right text of a line (it is not a
    string), [draw] raises the canvas's exception after the left text is
    drawn: the right text is not drawn. *)
Theorem two_column_right_text_refused
  (stringWidth : value -> string -> Q -> result float)
  (canvas_error : TwoColumnLine.canvas_op -> option exn)
  (t : TwoColumnLine.t) (W H : float) (x : exn) :
  let ls := TwoColumnLine.left_style t in
  let rs := TwoColumnLine.right_style t in
  let calls :=
    [ TwoColumnLine.setFont (TwoColumnLine.fontName ls)
                            (TwoColumnLine.fontSize ls);
      TwoColumnLine.setFillColor (TwoColumnLine.get_color ls black);
      TwoColumnLine.drawString 0 0 (TwoColumnLine.left_text t) ] in
  stringWidth (TwoColumnLine.right_text t) (TwoColumnLine.fontName rs)
              (TwoColumnLine.fontSize rs) = Raise x ->
  Forall (fun op => canvas_error op = None) calls ->
  TwoColumnLine.draw stringWidth canvas_error
                     (snd (TwoColumnLine.wrap t W H)) [] =
    (Raise x, calls).
Proof.
  cbv zeta. intros Hm Hc.
  repeat match goal with
         | F : Forall _ (_ :: _) |- _ =>
             let E := fresh "E" in
             pose proof (Forall_inv F) as E;
             apply Forall_inv_tail in F
         end.
  unfold TwoColumnLine.draw, bind, TwoColumnLine.emit, lift.
  cbn [TwoColumnLine.wrap snd TwoColumnLine.left_style
       TwoColumnLine.right_style TwoColumnLine.left_text
       TwoColumnLine.right_text TwoColumnLine.width].
  rewrite E, E0, E1, Hm. reflexivity.
Qed.

End Rendering.

(** ** The statements on the sample inputs *)

Lemma personal_empty_appends_spacer_witness :
  create_personal_section sample_paragraph_error
                          (sample_world (VDict empty_personal)) =
    (Ok tt,
     with_story (sample_world (VDict empty_personal))
                [Spacer 1 (0.03 * inch)]).
Proof.
  exact (personal_empty_appends_spacer sample_paragraph_error
           (sample_world (VDict empty_personal)) empty_personal
           eq_refl eq_refl).
Defined.


Lemma section_order_fixed_witness :
  (fst (build_story sample_paragraph_error
                    (sample_world (VDict skills_then_personal))) =
   fst (build_story sample_paragraph_error
                    (sample_world (VDict personal_then_skills))) /\
   story (snd (build_story sample_paragraph_error
                           (sample_world (VDict skills_then_personal)))) =
   story (snd (build_story sample_paragraph_error
                           (sample_world (VDict personal_then_skills))))) /\
  fst (build_story sample_paragraph_error
                   (sample_world (VDict markup_then_certifications))) =
    Raise (ValueError "malformed markup") /\
  story (snd (build_story sample_paragraph_error
                          (sample_world (VDict markup_then_certifications)))) =
    [ section_header sample_styles "TECHNICAL SKILLS";
      HRFlowable "100%" 0.5 black;
      Spacer 1 (0.08 * inch) ].
Proof.
  split.
  - apply (proj1 (section_order_fixed sample_paragraph_error)
                 (sample_world (VDict skills_then_personal))
                 (sample_world (VDict personal_then_skills))
                 skills_then_personal personal_then_skills).
    + reflexivity.
    + reflexivity.
    + reflexivity.
    + cbn. constructor.
      * intros [H|[]]. discriminate H.
      * constructor; [intros []|constructor].
    + apply perm_swap.
  - destruct (proj2 (section_order_fixed sample_paragraph_error)
                    (sample_world (VDict markup_then_certifications)))
      as (Hr & Hs & _).
    rewrite Hr, Hs. split; reflexivity.
Defined.





Lemma bullet_hanging_indent_witness :
  filter is_paragraph
         (appended (experience_entry sample_paragraph_error
                                     (VDict acme_entry))
                   (sample_world (VDict []))) =
    [ Paragraph (FStr [Lit "- "; Fmt (VStr "Built things")])
                (sample_styles BulletPoint);
      Paragraph (FStr [Lit "- "; Fmt (VStr "Led a team")])
                (sample_styles BulletPoint) ].
Proof.
  pose proof (bullet_hanging_indent sample_paragraph_error
                sample_stringWidth sample_sheet)
    as (_ & _ & _ & _ & _ & Hbullets).
  apply (proj2 (Hbullets (sample_world (VDict [])) acme_entry
                         [VStr "Built things"; VStr "Led a team"]
                         eq_refl eq_refl)).
  repeat constructor.
Defined.

Lemma projects_header_without_separator_witness :
  exists rest : list block,
    appended (create_projects_section sample_paragraph_error)
             (sample_world (VDict one_project)) =
      section_header sample_styles "PROJECTS" :: rest /\
    Forall no_separator rest.
Proof.
  apply (proj1 (projects_header_without_separator sample_paragraph_error
                  (sample_world (VDict one_project)) one_project eq_refl)
               (VList [VDict [("name", VStr "Resume generator")]])).
  - reflexivity.
  - reflexivity.
Defined.

(** A file system without the input file; one with a file that holds the
    record [jane] and a [doc.build] that succeeds; and one with a file
    that holds skills whose joined text the library refuses. *)
Lemma exit_status_witness :
  fst (main sample_paragraph_error sample_stringWidth sample_sheet
            (fun _ => false)
            (fun _ => Raise (LibraryError "unreadable"))
            (fun _ _ => Ok tt)) = Ok 1%Z /\
  fst (main sample_paragraph_error sample_stringWidth sample_sheet
            (fun _ => true)
            (fun _ => Ok (VDict jane))
            (fun _ _ => Ok tt)) = Ok 0%Z /\
  fst (main sample_paragraph_error sample_stringWidth sample_sheet
            (fun _ => true)
            (fun _ => Ok (VDict markup_skills))
            (fun _ _ => Ok tt)) = Ok 1%Z.
Proof.
  split; [|split].
  - apply (proj2 (proj2 (proj2
             (exit_status sample_paragraph_error sample_stringWidth
                          sample_sheet (fun _ => false)
                          (fun _ => Raise (LibraryError "unreadable"))
                          (fun _ _ => Ok tt))))).
    reflexivity.
  - apply (proj2 (proj1 (proj2
             (exit_status sample_paragraph_error sample_stringWidth
                          sample_sheet (fun _ => true)
                          (fun _ => Ok (VDict jane))
                          (fun _ _ => Ok tt))))).
    split; [reflexivity|].
    exists (VDict jane). repeat split; reflexivity.
  - pose proof (exit_status sample_paragraph_error sample_stringWidth
                            sample_sheet (fun _ => true)
                            (fun _ => Ok (VDict markup_skills))
                            (fun _ _ => Ok tt)) as (Hcode & Hzero & _).
    destruct Hcode as [H0|H1]; [|exact H1].
    apply Hzero in H0. destruct H0 as (_ & v & Hv & Hr & _).
    injection Hv as <-. vm_compute in Hr. discriminate Hr.
Defined.

Lemma renderer_reads_its_key_witness :
  out (create_skills_section sample_paragraph_error)
      (self (sample_world (VDict (("notes", VStr "draft") :: three_skills)))) =
  out (create_skills_section sample_paragraph_error)
      (self (sample_world (VDict three_skills))).
Proof.
  apply (Forall_inv (Forall_inv_tail (Forall_inv_tail (Forall_inv_tail
           (renderer_reads_its_key sample_paragraph_error))))).
  split; [reflexivity|].
  intros k [<-|[]]. split; reflexivity.
Defined.

Lemma unknown_keys_ignored_witness :
  fst (build_story sample_paragraph_error
         (sample_world (VDict (("notes", VStr "draft") :: jane)))) =
  fst (build_story sample_paragraph_error (sample_world (VDict jane))) /\
  story (snd (build_story sample_paragraph_error
                (sample_world (VDict (("notes", VStr "draft") :: jane))))) =
  story (snd (build_story sample_paragraph_error (sample_world (VDict jane)))).
Proof.
  apply (unknown_keys_ignored sample_paragraph_error
           (sample_world (VDict (("notes", VStr "draft") :: jane)))
           (sample_world (VDict jane))
           (("notes", VStr "draft") :: jane) jane).
  - reflexivity.
  - reflexivity.
  - reflexivity.
  - intros k [<-|[<-|[<-|[<-|[<-|[<-|[]]]]]]]; reflexivity.
Defined.

Lemma section_omitted_witness :
  create_personal_section sample_paragraph_error
    (sample_world (VDict [("experience", VList []); ("skills", VStr "")])) =
    (Ok tt,
     sample_world (VDict [("experience", VList []); ("skills", VStr "")])) /\
  create_experience_section sample_paragraph_error
    (sample_world (VDict [("experience", VList []); ("skills", VStr "")])) =
    (Ok tt,
     sample_world (VDict [("experience", VList []); ("skills", VStr "")])) /\
  create_skills_section sample_paragraph_error
    (sample_world (VDict [("experience", VList []); ("skills", VStr "")])) =
    (Ok tt,
     sample_world (VDict [("experience", VList []); ("skills", VStr "")])).
Proof.
  destruct (section_omitted sample_paragraph_error
              (sample_world
                 (VDict [("experience", VList []); ("skills", VStr "")]))
              [("experience", VList []); ("skills", VStr "")] eq_refl)
    as [Hp Hg].
  split; [apply Hp; reflexivity|]. split.
  - apply (Forall_inv Hg). reflexivity.
  - apply (Forall_inv (Forall_inv_tail (Forall_inv_tail Hg))). reflexivity.
Defined.

Lemma renderers_ignore_story_witness :
  appended (create_skills_section sample_paragraph_error)
           (sample_world (VDict three_skills)) =
  appended (create_skills_section sample_paragraph_error)
           (with_story (sample_world (VDict three_skills))
                       [Spacer 1 1; Spacer 1 2]).
Proof.
  apply (Forall_inv (Forall_inv_tail (Forall_inv_tail (Forall_inv_tail
           (renderers_ignore_story sample_paragraph_error))))
           (sample_world (VDict three_skills))
           (with_story (sample_world (VDict three_skills))
                       [Spacer 1 1; Spacer 1 2])).
  reflexivity.
Defined.

Lemma experience_section_blocks_witness :
  create_experience_section sample_paragraph_error
                            (sample_world (VDict two_jobs)) =
    (Ok tt,
     with_story (sample_world (VDict two_jobs))
       [ section_header sample_styles "PROFESSIONAL EXPERIENCE";
         HRFlowable "100%" 0.5 black;
         Spacer 1 (0.08 * inch);
         bullet sample_styles (VStr "Built things");
         bullet sample_styles (VStr "Led a team");
         Spacer 1 (0.05 * inch);
         two_column (VStr "Initech") (VStr "Austin") bold_12 plain_11;
         Spacer 1 (0.02 * inch);
         Spacer 1 (0.05 * inch) ]).
Proof.
  apply (experience_section_blocks sample_paragraph_error
           (sample_world (VDict two_jobs)) two_jobs
           [acme_entry; initech_entry]).
  - reflexivity.
  - reflexivity.
  - discriminate.
  - constructor; [eexists; reflexivity|].
    constructor; [eexists; reflexivity|]. constructor.
  - repeat constructor.
Defined.

Lemma education_section_blocks_witness :
  create_education_section (sample_world (VDict one_school)) =
    (Ok tt,
     with_story (sample_world (VDict one_school))
       [ section_header sample_styles "EDUCATION";
         HRFlowable "100%" 0.5 black;
         Spacer 1 (0.08 * inch);
         two_column (VStr "MIT") (VStr "2010 - 2014") bold_12 plain_11;
         Spacer 1 (0.02 * inch) ]).
Proof.
  apply (education_section_blocks (sample_world (VDict one_school))
                                  one_school [school_entry]).
  - reflexivity.
  - reflexivity.
  - discriminate.
Defined.

Lemma projects_section_blocks_witness :
  create_projects_section sample_paragraph_error
                          (sample_world (VDict one_project)) =
    (Ok tt,
     with_story (sample_world (VDict one_project))
       [ section_header sample_styles "PROJECTS";
         Paragraph (FStr [Lit "<b>"; Fmt (VStr "Resume generator");
                          Lit "</b>"])
                   (sample_styles JobTitle);
         Spacer 1 (0.1 * inch) ]).
Proof.
  apply (projects_section_blocks sample_paragraph_error
           (sample_world (VDict one_project))
           one_project [[("name", VStr "Resume generator")]]).
  - reflexivity.
  - reflexivity.
  - discriminate.
  - repeat constructor.
Defined.

Lemma certifications_section_blocks_witness :
  create_certifications_section sample_paragraph_error
                                (sample_world (VDict two_certifications)) =
    (Ok tt,
     with_story (sample_world (VDict two_certifications))
       [ section_header sample_styles "CERTIFICATIONS";
         HRFlowable "100%" 0.5 black;
         Spacer 1 (0.08 * inch);
         certification_line sample_styles (VStr "CKA");
         certification_line sample_styles (VInt 2024) ]).
Proof.
  apply (certifications_section_blocks sample_paragraph_error
           (sample_world (VDict two_certifications)) two_certifications
           [VStr "CKA"; VInt 2024]).
  - reflexivity.
  - reflexivity.
  - discriminate.
  - repeat constructor.
Defined.

Lemma personal_contact_not_a_string_witness :
  create_personal_section sample_paragraph_error
                          (sample_world (VDict numeric_phone)) =
    (Raise TypeError,
     with_story (sample_world (VDict numeric_phone))
       [Paragraph (Obj (VStr "Jane Doe")) (sample_styles Name)]).
Proof.
  apply (personal_contact_not_a_string sample_paragraph_error
           (sample_world (VDict numeric_phone)) numeric_phone
           [("name", VStr "Jane Doe"); ("phone", VInt 5551234567)]).
  - reflexivity.
  - reflexivity.
  - constructor. intros s. discriminate.
  - repeat constructor.
Defined.

Lemma personal_not_a_mapping_witness :
  create_personal_section sample_paragraph_error
                          (sample_world (VDict [("personal", VNone)])) =
    (Raise TypeError, sample_world (VDict [("personal", VNone)])).
Proof.
  apply (personal_not_a_mapping sample_paragraph_error
           (sample_world (VDict [("personal", VNone)]))
           [("personal", VNone)] VNone);
    reflexivity.
Defined.

Lemma section_value_not_iterable_witness :
  create_experience_section sample_paragraph_error
    (sample_world (VDict [("experience", VInt 5)])) =
    (Raise TypeError,
     with_story (sample_world (VDict [("experience", VInt 5)]))
       [ section_header sample_styles "PROFESSIONAL EXPERIENCE";
         HRFlowable "100%" 0.5 black;
         Spacer 1 (0.08 * inch) ]).
Proof.
  apply (Forall_inv
           (section_value_not_iterable sample_paragraph_error
              (sample_world (VDict [("experience", VInt 5)]))
              [("experience", VInt 5)] eq_refl) (VInt 5));
    reflexivity.
Defined.

Lemma skills_element_not_a_string_witness :
  create_skills_section sample_paragraph_error
    (sample_world (VDict [("skills", VList [VStr "Go"; VInt 3])])) =
    (Raise TypeError,
     with_story (sample_world (VDict [("skills", VList [VStr "Go"; VInt 3])]))
       [ section_header sample_styles "TECHNICAL SKILLS";
         HRFlowable "100%" 0.5 black;
         Spacer 1 (0.08 * inch) ]).
Proof.
  apply (skills_element_not_a_string sample_paragraph_error
           (sample_world (VDict [("skills", VList [VStr "Go"; VInt 3])]))
           [("skills", VList [VStr "Go"; VInt 3])] [VStr "Go"; VInt 3]).
  - reflexivity.
  - reflexivity.
  - apply Exists_cons_tl. constructor. intros s. discriminate.
Defined.

Lemma main_record_not_a_mapping_witness :
  fst (main sample_paragraph_error sample_stringWidth sample_sheet
            (fun _ => true)
            (fun _ => Ok VNone) (fun _ _ => Ok tt)) = Ok 1%Z.
Proof.
  rewrite (main_record_not_a_mapping sample_paragraph_error sample_stringWidth
             sample_sheet
             (fun _ => true) (fun _ => Ok VNone) (fun _ _ => Ok tt) VNone
             eq_refl eq_refl eq_refl).
  reflexivity.
Defined.

Lemma main_build_file_not_found_witness :
  fst (main sample_paragraph_error sample_stringWidth sample_sheet
            (fun _ => true)
            (fun _ => Ok (VDict jane))
            (fun _ _ => Raise (FileNotFoundError "no such directory"))) =
  Ok 1%Z.
Proof.
  rewrite (main_build_file_not_found sample_paragraph_error sample_stringWidth
             sample_sheet
             (fun _ => true) (fun _ => Ok (VDict jane))
             (fun _ _ => Raise (FileNotFoundError "no such directory"))
             (VDict jane) "no such directory"
             eq_refl eq_refl eq_refl eq_refl).
  reflexivity.
Defined.

Lemma main_success_trace_witness :
  fst (main sample_paragraph_error sample_stringWidth sample_sheet
            (fun _ => true)
            (fun _ => Ok (VDict jane)) (fun _ _ => Ok tt)) = Ok 0%Z.
Proof.
  rewrite (proj1 (main_success_trace sample_paragraph_error sample_stringWidth
             sample_sheet
                    (fun _ => true) (fun _ => Ok (VDict jane))
                    (fun _ _ => Ok tt) (VDict jane)
                    eq_refl eq_refl eq_refl eq_refl)).
  reflexivity.
Defined.

Lemma main_load_error_witness :
  fst (main sample_paragraph_error sample_stringWidth sample_sheet
            (fun _ => true)
            (fun _ => Raise (LibraryError "mapping values are not allowed"))
            (fun _ _ => Ok tt)) = Ok 1%Z.
Proof.
  rewrite (proj1 (main_load_error sample_paragraph_error sample_stringWidth
             sample_sheet
                    (fun _ => true)
                    (fun _ => Raise (LibraryError
                                       "mapping values are not allowed"))
                    (fun _ _ => Ok tt)
                    (LibraryError "mapping values are not allowed")
                    eq_refl eq_refl)).
  reflexivity.
Defined.

Lemma no_section_key_empty_story_witness :
  build_story sample_paragraph_error
              (sample_world (VList [VStr "notes"; VInt 1])) =
    (Ok tt, with_story (sample_world (VList [VStr "notes"; VInt 1])) []).
Proof.
  apply (no_section_key_empty_story sample_paragraph_error
           (sample_world (VList [VStr "notes"; VInt 1]))).
  repeat constructor.
Defined.

Lemma custom_styles_frame_witness :
  _setup_custom_styles sample_stringWidth sample_sheet Heading2 =
    sample_sheet Heading2 /\
  _setup_custom_styles sample_stringWidth sample_sheet Description =
    _setup_custom_styles (fun _ _ _ => 0) sample_sheet Description.
Proof.
  split.
  - apply (proj1 (custom_styles_frame sample_stringWidth sample_stringWidth
                                      sample_sheet Heading2)).
    cbn. tauto.
  - apply (proj2 (custom_styles_frame sample_stringWidth (fun _ _ _ => 0)
                                      sample_sheet Description)).
    discriminate.
Defined.

Lemma skills_joins_the_items_witness :
  create_skills_section sample_paragraph_error
                        (sample_world (VDict [("skills", VStr "Go")])) =
    (Ok tt,
     with_story (sample_world (VDict [("skills", VStr "Go")]))
       [ section_header sample_styles "TECHNICAL SKILLS";
         HRFlowable "100%" 0.5 black;
         Spacer 1 (0.08 * inch);
         Paragraph (Obj (VStr "G, o")) (sample_styles Description);
         Spacer 1 (0.1 * inch) ]).
Proof.
  apply (skills_joins_the_items sample_paragraph_error
           (sample_world (VDict [("skills", VStr "Go")]))
           [("skills", VStr "Go")] (VStr "Go")
           [VStr "G"; VStr "o"] ["G"; "o"]);
    reflexivity.
Defined.

Lemma responsibilities_not_iterable_witness :
  experience_entry sample_paragraph_error
    (VDict (("responsibilities", VNone) :: initech_entry))
    (sample_world (VDict [])) =
    (Raise TypeError,
     with_story (sample_world (VDict []))
       [ two_column (VStr "Initech") (VStr "Austin") bold_12 plain_11;
         Spacer 1 (0.02 * inch) ]).
Proof.
  apply (responsibilities_not_iterable sample_paragraph_error
           (sample_world (VDict []))
           (("responsibilities", VNone) :: initech_entry) VNone);
    reflexivity.
Defined.

Lemma personal_name_refused_witness :
  create_personal_section sample_paragraph_error
                          (sample_world (VDict null_name)) =
    (Raise (AttributeError "split"), sample_world (VDict null_name)).
Proof.
  apply (personal_name_refused sample_paragraph_error
           (sample_world (VDict null_name)) null_name
           [("name", VNone); ("email", VStr "jane@x.com")] VNone);
    reflexivity.
Defined.

Lemma skills_text_refused_witness :
  create_skills_section sample_paragraph_error
                        (sample_world (VDict markup_skills)) =
    (Raise (ValueError "malformed markup"),
     with_story (sample_world (VDict markup_skills))
       [ section_header sample_styles "TECHNICAL SKILLS";
         HRFlowable "100%" 0.5 black;
         Spacer 1 (0.08 * inch) ]).
Proof.
  apply (skills_text_refused sample_paragraph_error
           (sample_world (VDict markup_skills)) markup_skills
           (VList [VStr "C++"; VStr "x<y"])
           [VStr "C++"; VStr "x<y"] ["C++"; "x<y"]);
    reflexivity.
Defined.

Lemma certification_refused_witness :
  create_certifications_section sample_paragraph_error
    (sample_world (VDict markup_certifications)) =
    (Raise (ValueError "malformed markup"),
     with_story (sample_world (VDict markup_certifications))
       [ section_header sample_styles "CERTIFICATIONS";
         HRFlowable "100%" 0.5 black;
         Spacer 1 (0.08 * inch);
         certification_line sample_styles (VStr "CKA") ]).
Proof.
  apply (certification_refused sample_paragraph_error
           (sample_world (VDict markup_certifications))
           markup_certifications
           [VStr "CKA"] [VStr "CKS"] (VStr "Level<a")).
  - reflexivity.
  - reflexivity.
  - repeat constructor.
  - reflexivity.
Defined.

Lemma bullet_refused_witness :
  experience_entry sample_paragraph_error (VDict markup_entry)
                   (sample_world (VDict [])) =
    (Raise (ValueError "malformed markup"),
     with_story (sample_world (VDict []))
       [ two_column (VStr "Initech") (VStr "Austin") bold_12 plain_11;
         Spacer 1 (0.02 * inch);
         bullet sample_styles (VStr "Built things") ]).
Proof.
  apply (bullet_refused sample_paragraph_error
           (sample_world (VDict [])) markup_entry
           [VStr "Built things"] [VStr "Led a team"]
           (VStr "Kept cost<baseline")).
  - reflexivity.
  - repeat constructor.
  - reflexivity.
Defined.

Lemma project_description_refused_witness :
  project_entry sample_paragraph_error (VDict null_description)
                (sample_world (VDict [])) =
    (Raise (AttributeError "split"),
     with_story (sample_world (VDict []))
       [ Paragraph (FStr [Lit "<b>"; Fmt (VStr "Resume generator");
                          Lit "</b>"])
                   (sample_styles JobTitle) ]).
Proof.
  apply (project_description_refused sample_paragraph_error
           (sample_world (VDict [])) null_description VNone).
  - reflexivity.
  - repeat constructor.
  - reflexivity.
Defined.

(** The input file holds skills that the library refuses: [main] returns
    1 after the header, the rule and the spacer of the skills section. *)
Lemma main_render_error_witness :
  fst (main sample_paragraph_error sample_stringWidth sample_sheet
            (fun _ => true) (fun _ => Ok (VDict markup_skills))
            (fun _ _ => Ok tt)) = Ok 1%Z /\
  List.length
    (story (snd (main sample_paragraph_error sample_stringWidth sample_sheet
                      (fun _ => true) (fun _ => Ok (VDict markup_skills))
                      (fun _ _ => Ok tt)))) = 3%nat /\
  existsb is_build
    (trace (snd (main sample_paragraph_error sample_stringWidth sample_sheet
                      (fun _ => true) (fun _ => Ok (VDict markup_skills))
                      (fun _ _ => Ok tt)))) = false.
Proof.
  rewrite (main_render_error sample_paragraph_error sample_stringWidth
             sample_sheet (fun _ => true)
             (fun _ => Ok (VDict markup_skills)) (fun _ _ => Ok tt)
             (VDict markup_skills) (ValueError "malformed markup")
             eq_refl eq_refl eq_refl
             (fun msg E => eq_ind (ValueError "malformed markup")
                             (fun y => match y with
                                       | FileNotFoundError _ => False
                                       | _ => True
                                       end) I _ E)).
  repeat split.
Defined.

Lemma two_column_right_text_refused_witness :
  TwoColumnLine.draw sample_measure sample_canvas_error
    (snd (TwoColumnLine.wrap year_line 451.3 792)) [] =
    (Raise (AttributeError "decode"),
     [ TwoColumnLine.setFont "Helvetica-Oblique" 11;
       TwoColumnLine.setFillColor black;
       TwoColumnLine.drawString 0 0 (VStr "Engineer") ]).
Proof.
  apply (two_column_right_text_refused sample_measure sample_canvas_error
           year_line 451.3 792 (AttributeError "decode")).
  - reflexivity.
  - repeat constructor.
Defined.
